(** * Slack notification relay: the two request handlers and their helpers

    Shallow embedding of [src/unnamed/part_000] (the handler with the
    normalized error taxonomy, below "the richer variant") and of
    [src/modules/sendSlackNotification.ts] ("the plain variant").

    - JavaScript strings are [string]s; the regular expression of
      [markdownToSlackMrkdwn] only tests code units against the ASCII
      characters of the pattern, so it reads the text one unit at a time.
    - JSON documents are the values [JSON.parse] builds; JavaScript values
      add [undefined] and what an object literal inherits from
      [Object.prototype].
    - A [Response] is kept as its status, its headers and the object handed
      to [JSON.stringify]; [json_fields] gives the members that reach the
      serialized text.
    - The awaits of a handler are recorded as a trace of events in a small
      writer monad with early [return] and [throw]. *)

From Stdlib Require Import Strings.String Strings.Ascii.
From Stdlib Require Import Lists.List.
From Stdlib Require Import ZArith Bool Arith Lia.
From Stdlib Require Import Floats.SpecFloat.
Import ListNotations.

Local Open Scope list_scope.
Local Open Scope string_scope.

(** ** Strings *)

Module Str.

Fixpoint take_while (p : ascii -> bool) (s : string) : string :=
  match s with
  | String c s' => if p c then String c (take_while p s') else ""
  | "" => ""
  end.

Fixpoint drop_while (p : ascii -> bool) (s : string) : string :=
  match s with
  | String c s' => if p c then drop_while p s' else s
  | "" => ""
  end.

Fixpoint all (p : ascii -> bool) (s : string) : bool :=
  match s with
  | String c s' => p c && all p s'
  | "" => true
  end.

(** [strip p s] removes the prefix [p] from [s] when it is there. *)
Fixpoint strip (p s : string) : option string :=
  match p, s with
  | "", _ => Some s
  | String a p', String c s' => if Ascii.eqb a c then strip p' s' else None
  | String _ _, "" => None
  end.

Definition is_not (c : ascii) (x : ascii) : bool := negb (Ascii.eqb c x).

End Str.

(** ** A backtracking matcher for the regular expressions of the source

    The fragment has literal characters, negated one-character classes,
    the greedy quantifiers [*], [+] and [?] on such atoms, concatenation
    and numbered capture groups, which is what the pattern of
    [markdownToSlackMrkdwn] is made of.  Matching follows the ECMAScript
    matcher: continuation passing, greedy alternatives first, backtracking
    on failure of the continuation. *)

Module Regex.

Inductive atom : Type :=
  | Chr (c : ascii)       (* a literal or escaped character *)
  | NotChr (c : ascii).   (* [^c] *)

Inductive re : Type :=
  | Atom (a : atom)
  | Star (a : atom)       (* a*  greedy *)
  | Plus (a : atom)       (* a+  greedy *)
  | Opt (a : atom)        (* a?  greedy *)
  | Seq (r1 r2 : re)
  | Group (n : nat) (r : re).

Definition accepts (a : atom) (x : ascii) : bool :=
  match a with
  | Chr c => Ascii.eqb c x
  | NotChr c => negb (Ascii.eqb c x)
  end.

(** Captures, most recent first; [capture n] is what group [n] holds. *)
Definition captures := list (nat * string).

Fixpoint capture (n : nat) (cs : captures) : option string :=
  match cs with
  | (m, s) :: cs' => if Nat.eqb n m then Some s else capture n cs'
  | [] => None
  end.

(** The state a successful match ends in: captures and unread input. *)
Definition state : Type := captures * string.
Definition cont : Type := string -> captures -> option state.

Fixpoint star (a : atom) (s : string) (cs : captures) (k : cont) : option state :=
  match s with
  | String x s' =>
      if accepts a x then
        match star a s' cs k with
        | Some st => Some st
        | None => k s cs
        end
      else k s cs
  | "" => k "" cs
  end.

(** The text read between the input [s] and its suffix [s']. *)
Definition consumed (s s' : string) : string :=
  substring 0 (String.length s - String.length s') s.

Fixpoint run (r : re) (s : string) (cs : captures) (k : cont) : option state :=
  match r with
  | Atom a =>
      match s with
      | String x s' => if accepts a x then k s' cs else None
      | "" => None
      end
  | Star a => star a s cs k
  | Plus a =>
      match s with
      | String x s' => if accepts a x then star a s' cs k else None
      | "" => None
      end
  | Opt a =>
      match s with
      | String x s' =>
          if accepts a x then
            match k s' cs with
            | Some st => Some st
            | None => k s cs
            end
          else k s cs
      | "" => k "" cs
      end
  | Seq r1 r2 => run r1 s cs (fun s' cs' => run r2 s' cs' k)
  | Group n r => run r s cs (fun s' cs' => k s' ((n, consumed s s') :: cs'))
  end.

(** One attempt at the head of [s]. *)
Definition match_here (r : re) (s : string) : option state :=
  run r s [] (fun s' cs => Some (cs, s')).

(** A literal string, character after character. *)
Fixpoint lit (a : ascii) (p : string) : re :=
  match p with
  | "" => Atom (Chr a)
  | String b p' => Seq (Atom (Chr a)) (lit b p')
  end.

(** [String.prototype.replace] with a global pattern and a function as
    replacement: scan left to right, try the pattern at every position that
    is not inside an earlier match, put the replacement for each match, and
    go on behind it (one unit further after an empty match).  [skip] counts
    the units of the last match still to be passed over. *)
Fixpoint replace_from (r : re) (f : string -> captures -> string)
    (skip : nat) (s : string) : string :=
  match skip with
  | S skip' =>
      match s with
      | String _ s' => replace_from r f skip' s'
      | "" => ""
      end
  | 0 =>
      match match_here r s with
      | Some (cs, rest) =>
          let whole := consumed s rest in
          f whole cs ++
          match s with
          | String x s' =>
              match String.length whole with
              | 0 => String x (replace_from r f 0 s')
              | S n => replace_from r f n s'
              end
          | "" => ""
          end
      | None =>
          match s with
          | String x s' => String x (replace_from r f 0 s')
          | "" => ""
          end
      end
  end.

Definition replace_all (r : re) (f : string -> captures -> string) (s : string) : string :=
  replace_from r f 0 s.

End Regex.

(** ** markdownToSlackMrkdwn (the same function in both source files) *)

Import Regex.

(** The pattern of the source, piece by piece: an escaped opening bracket;
    group 1, any number of units other than a closing bracket; an escaped
    closing bracket; an escaped opening parenthesis; group 2, made of
    [http], an optional [s], [://] and one or more units other than a
    closing parenthesis; an escaped closing parenthesis. *)
Definition link_pattern : re :=
  Seq (Atom (Chr "["))
 (Seq (Group 1 (Star (NotChr "]")))
 (Seq (Atom (Chr "]"))
 (Seq (Atom (Chr "("))
 (Seq (Group 2
        (Seq (lit "h" "ttp")
        (Seq (Opt (Chr "s"))
        (Seq (lit ":" "//")
             (Plus (NotChr ")"))))))
      (Atom (Chr ")")))))).

(** A template substitution [${x}] of a capture: an unset group would read
    as the text of [undefined]. *)
Definition interpolate (x : option string) : string :=
  match x with
  | Some s => s
  | None => "undefined"
  end.

(** The replacement function: it ignores the whole match and builds
    [<url|label>] from group 2 and group 1. *)
Definition link_replacer (_ : string) (cs : captures) : string :=
  "<" ++ interpolate (capture 2 cs) ++ "|" ++ interpolate (capture 1 cs) ++ ">".

Definition markdownToSlackMrkdwn (text : string) : string :=
  replace_all link_pattern link_replacer text.


(** ** JSON documents and JavaScript values *)

#[warnings="-register-all"]
Inductive json : Type :=
  | JNull
  | JBool (b : bool)
  | JNum (x : spec_float)
  | JStr (s : string)
  | JArr (items : list json)
  | JObj (members : list (string * json)).

(** What an expression of the handlers can evaluate to: a JSON value,
    [undefined], or something an object inherits from [Object.prototype]
    (one of its functions, or the prototype itself through [__proto__]). *)
Inductive value : Type :=
  | Undefined
  | Json (j : json)
  | Function (name : string)
  | ObjectPrototype.

Definition str (s : string) : value := Json (JStr s).

Definition of_member (m : option json) : value :=
  match m with
  | Some j => Json j
  | None => Undefined
  end.

(** ToBoolean: [undefined], [null], [false], the zeros, NaN and the empty
    string are falsy, everything else is truthy. *)
Definition ToBoolean (v : value) : bool :=
  match v with
  | Undefined => false
  | Json JNull => false
  | Json (JBool b) => b
  | Json (JNum (S754_zero _)) => false
  | Json (JNum S754_nan) => false
  | Json (JNum _) => true
  | Json (JStr s) => negb (s =? "")
  | Json (JArr _) => true
  | Json (JObj _) => true
  | Function _ => true
  | ObjectPrototype => true
  end.

(** The properties of [Object.prototype], which every object literal and
    every object built by [JSON.parse] inherits. *)
Definition Object_prototype : list (string * value) :=
  [ ("constructor", Function "Object");
    ("hasOwnProperty", Function "hasOwnProperty");
    ("isPrototypeOf", Function "isPrototypeOf");
    ("propertyIsEnumerable", Function "propertyIsEnumerable");
    ("toLocaleString", Function "toLocaleString");
    ("toString", Function "toString");
    ("valueOf", Function "valueOf");
    ("__proto__", ObjectPrototype);
    ("__defineGetter__", Function "__defineGetter__");
    ("__defineSetter__", Function "__defineSetter__");
    ("__lookupGetter__", Function "__lookupGetter__");
    ("__lookupSetter__", Function "__lookupSetter__") ].

(** Own property [k] of a list of members; a later member of the same name
    wins, as in [JSON.parse]. *)
Fixpoint own {A : Type} (members : list (string * A)) (k : string) : option A :=
  match members with
  | [] => None
  | (k', v) :: rest =>
      match own rest k with
      | Some w => Some w
      | None => if k' =? k then Some v else None
      end
  end.

(** [o[k]] on an ordinary object: own property first, then the prototype. *)
Definition lookup (members : list (string * value)) (k : string) : value :=
  match own members k with
  | Some v => v
  | None =>
      match own Object_prototype k with
      | Some v => v
      | None => Undefined
      end
  end.

(** A table written as an object literal of strings. *)
Definition literal (rows : list (string * string)) : list (string * value) :=
  map (fun row => (fst row, str (snd row))) rows.

(** [j.k] for a JSON value other than [null], for the names the handlers
    read ([message], [ok], [error], [ts]): no prototype of a primitive or of
    an array defines them, so only an object can have them. *)
Definition get (j : json) (k : string) : value :=
  match j with
  | JObj members => lookup (map (fun m => (fst m, Json (snd m))) members) k
  | _ => Undefined
  end.

(** What [JSON.stringify] writes for the member of an object: nothing for
    [undefined] and for a function, an empty object for [Object.prototype],
    which has no enumerable property. *)
Definition json_member (v : value) : option json :=
  match v with
  | Undefined => None
  | Function _ => None
  | Json j => Some j
  | ObjectPrototype => Some (JObj [])
  end.

Fixpoint json_fields (o : list (string * value)) : list (string * json) :=
  match o with
  | [] => []
  | (k, v) :: o' =>
      match json_member v with
      | Some j => (k, j) :: json_fields o'
      | None => json_fields o'
      end
  end.

(** ** Requests, responses, the outbound call *)

(** [request.params] may be missing; [request.json()] resolves to a JSON
    value or rejects ([None]). *)
Record Request : Type := {
  params : option (list (string * string));
  request_json : option json
}.

(** [request.params?.channel_name] *)
Definition channel_name (request : Request) : option string :=
  match params request with
  | Some ps => own ps "channel_name"
  | None => None
  end.

(** A [Response]: status, headers, and the object given to
    [JSON.stringify] for the body. *)
Record Response : Type := {
  status : Z;
  headers : list (string * string);
  body : list (string * value)
}.

Definition JSON_HEADERS : list (string * string) :=
  [("Content-Type", "application/json")].

(** An [Error] object; what [fetch] rejects with and what a failing
    expression throws. *)
Record Error : Type := {
  error_name : string;
  error_message : string
}.

(** The arguments of [fetch]. *)
Record FetchCall : Type := {
  fetch_url : string;
  fetch_method : string;
  fetch_authorization : string;
  fetch_content_type : string;
  payload_channel : string;
  payload_text : string
}.

(** The [error] member of Slack's reply, which the handlers read from a
    value of type [any]: absent, [null], a string (what Slack documents),
    or any other JSON value (a boolean, a number, an array, an object).
    [mapSlackError] uses what it is given as a property name, so for such
    another value the engine first converts it to a property key
    (ToPropertyKey), which gives a string or throws a TypeError, as for an
    object with a [toString] member that is no function; what the
    conversion gives comes with the value. *)
Inductive ErrorMember : Type :=
  | ErrorAbsent
  | ErrorNull
  | ErrorCode (code : string)
  | ErrorOther (j : json) (key : Error + string).

(** [slackResult.error] as a value. *)
Definition error_value (e : ErrorMember) : value :=
  match e with
  | ErrorAbsent => Undefined
  | ErrorNull => Json JNull
  | ErrorCode code => str code
  | ErrorOther j _ => Json j
  end.

(** The body of Slack's reply as [slackResponse.json()] gives it.  The
    handlers read its members [ok], [error] and [ts]. *)
Record SlackResult : Type := {
  ok : option json;
  error : ErrorMember;
  ts : option json
}.

Inductive SlackBody : Type :=
  | NotJson (e : Error)          (* [json()] rejects *)
  | NullBody                     (* the document [null] *)
  | Body (r : SlackResult).

Record SlackResponse : Type := {
  slack_status : Z;
  slack_body : SlackBody
}.

Inductive FetchResult : Type :=
  | Rejected (e : Error)
  | Resolved (r : SlackResponse).

(** [environment] of the host runtime. *)
Record Environment : Type := {
  SLACK_BOT_TOKEN : option string
}.

(** ** Control: awaits as a trace, early return, exceptions *)

Inductive event : Type :=
  | AwaitRequestJson
  | AwaitFetch (c : FetchCall)
  | AwaitSlackJson.

Inductive outcome : Type :=
  | Returned (r : Response)
  | Threw (e : Error).

Module Control.

Inductive step (A : Type) : Type :=
  | Value (a : A)
  | Return (r : Response)
  | Throw (e : Error).
Arguments Value {A} a.
Arguments Return {A} r.
Arguments Throw {A} e.

Definition M (A : Type) : Type := list event * step A.

Definition pure {A} (a : A) : M A := ([], Value a).

Definition bind {A B} (m : M A) (f : A -> M B) : M B :=
  match m with
  | (t, Value a) => let '(t', r) := f a in ((t ++ t')%list, r)
  | (t, Return r) => (t, Return r)
  | (t, Throw e) => (t, Throw e)
  end.

Definition await {A} (ev : event) (r : step A) : M A := ([ev], r).

Definition ret {A} (r : Response) : M A := ([], Return r).

Definition throw {A} (e : Error) : M A := ([], Throw e).

(** [try { m } catch (err) { h err }] *)
Definition try_catch {A} (m : M A) (h : Error -> M A) : M A :=
  match m with
  | (t, Throw e) => let '(t', r) := h e in ((t ++ t')%list, r)
  | _ => m
  end.

(** The body of an async function whose last statement returns. *)
Definition settle (m : M Response) : list event * outcome :=
  match m with
  | (t, Value r) => (t, Returned r)
  | (t, Return r) => (t, Returned r)
  | (t, Throw e) => (t, Threw e)
  end.

End Control.

Import Control.

Notation "x <- m ;; k" := (bind m (fun x => k))
  (at level 61, m at next level, right associativity).
Notation "m ;;; k" := (bind m (fun _ => k))
  (at level 61, right associativity).

(** [if (c) return r;] *)
Definition return_if (c : bool) (r : Response) : M unit :=
  if c then ret r else pure tt.

(** [await request.json()] *)
Definition await_request_json (request : Request) : M json :=
  await AwaitRequestJson
    match request_json request with
    | Some j => Value j
    | None => Throw {| error_name := "SyntaxError"; error_message := "Unexpected token" |}
    end.

(** [body?.message] *)
Definition body_message (b : json) : value :=
  match b with
  | JNull => Undefined
  | _ => get b "message"
  end.

(** The call [markdownToSlackMrkdwn(message)] with [message] of type [any]:
    only a string has a [replace] method. *)
Definition call_markdownToSlackMrkdwn (message : value) : M string :=
  match message with
  | Json (JStr text) => pure (markdownToSlackMrkdwn text)
  | _ => throw {| error_name := "TypeError";
                  error_message := "text.replace is not a function" |}
  end.

(** [await slackResponse.json()] *)
Definition await_slack_json (r : SlackResponse) : M (option SlackResult) :=
  await AwaitSlackJson
    match slack_body r with
    | NotJson e => Throw e
    | NullBody => Value None
    | Body b => Value (Some b)
    end.

(** The error of reading a member of [null]. *)
Definition null_member (name : string) : Error :=
  {| error_name := "TypeError";
     error_message := "Cannot read properties of null (reading '" ++ name ++ "')" |}.

(** Reading a member of the decoded reply; [null] has no members. *)
Definition member {A} (r : option SlackResult) (name : string)
    (field : SlackResult -> A) : M A :=
  match r with
  | Some b => pure (field b)
  | None => throw (null_member name)
  end.

Definition slack_call (token channelName text : string) : FetchCall :=
  {| fetch_url := "https://slack.com/api/chat.postMessage";
     fetch_method := "POST";
     fetch_authorization := "Bearer " ++ token;
     fetch_content_type := "application/json; charset=utf-8";
     payload_channel := "#" ++ channelName;
     payload_text := text |}.

(** ** The richer variant: src/unnamed/part_000 *)

Module Rich.

Definition errorResponse (status : Z) (category code message : value) : Response :=
  {| status := status;
     headers := JSON_HEADERS;
     body := [("category", category); ("code", code); ("message", message)] |}.

Record Mapped : Type := {
  mapped_status : Z;
  mapped_category : string;
  mapped_code : string;
  mapped_message : value
}.

Definition clientErrors : list (string * value) :=
  literal [ ("channel_not_found", "Channel not found");
            ("not_in_channel", "Bot is not in that channel") ].

Definition forbiddenErrors : list (string * value) :=
  literal [ ("invalid_auth", "Invalid Slack token");
            ("not_authed", "Not authenticated");
            ("token_revoked", "Slack token revoked");
            ("account_inactive", "Slack app inactive");
            ("missing_scope", "Bot missing required scope") ].

Definition mapSlackError (slackError : string) : Mapped :=
  if ToBoolean (lookup clientErrors slackError) then
    {| mapped_status := 400; mapped_category := "client_error";
       mapped_code := slackError;
       mapped_message := lookup clientErrors slackError |}
  else if ToBoolean (lookup forbiddenErrors slackError) then
    {| mapped_status := 403; mapped_category := "forbidden";
       mapped_code := slackError;
       mapped_message := lookup forbiddenErrors slackError |}
  else if slackError =? "rate_limited" then
    {| mapped_status := 429; mapped_category := "rate_limited";
       mapped_code := "rate_limited";
       mapped_message := str "Slack rate limit exceeded" |}
  else
    {| mapped_status := 500; mapped_category := "internal_error";
       mapped_code := "slack_error";
       mapped_message := str "Slack API error" |}.

(** The tuple of the mapper when the code it returns is the value it was
    given. *)
Record MappedValue : Type := {
  untyped_status : Z;
  untyped_category : string;
  untyped_code : value;
  untyped_message : value
}.

(** [mapSlackError] called with a value that is no string (its parameter
    is typed [string], its argument is [any]).  [key] is the property key
    the value converts to, used for both look-ups; the test against
    ["rate_limited"] is a strict equality, true of that string only; the
    value itself is returned as the code of the first two cases. *)
Definition mapSlackError_untyped (slackError : json) (key : string) : MappedValue :=
  if ToBoolean (lookup clientErrors key) then
    {| untyped_status := 400; untyped_category := "client_error";
       untyped_code := Json slackError;
       untyped_message := lookup clientErrors key |}
  else if ToBoolean (lookup forbiddenErrors key) then
    {| untyped_status := 403; untyped_category := "forbidden";
       untyped_code := Json slackError;
       untyped_message := lookup forbiddenErrors key |}
  else if match slackError with
          | JStr s => s =? "rate_limited"
          | _ => false
          end then
    {| untyped_status := 429; untyped_category := "rate_limited";
       untyped_code := str "rate_limited";
       untyped_message := str "Slack rate limit exceeded" |}
  else
    {| untyped_status := 500; untyped_category := "internal_error";
       untyped_code := str "slack_error";
       untyped_message := str "Slack API error" |}.

(** [slackResult.error ?? "unknown"] when the member is a string, [null] or
    absent. *)
Definition code_or_unknown (e : ErrorMember) : string :=
  match e with
  | ErrorCode code => code
  | _ => "unknown"
  end.

Section Handler.

Variable environment : Environment.
Variable fetch : FetchCall -> FetchResult.

Definition handler (request : Request) : list event * outcome :=
  settle (
    match channel_name request with
    | None | Some "" =>
        ret (errorResponse 400 (str "client_error") (str "missing_channel")
               (str "Missing channel_name"))
    | Some channelName =>
        body <- try_catch (await_request_json request)
                  (fun _ => ret (errorResponse 400 (str "client_error")
                                   (str "invalid_body") (str "Invalid JSON body"))) ;;
        let message := body_message body in
        return_if (negb (ToBoolean message))
          (errorResponse 400 (str "client_error") (str "missing_message")
             (str "Missing 'message' field")) ;;;
        match SLACK_BOT_TOKEN environment with
        | None | Some "" =>
            ret (errorResponse 500 (str "internal_error") (str "config_error")
                   (str "SLACK_BOT_TOKEN not configured"))
        | Some token =>
            slackResponse <-
              try_catch
                (text <- call_markdownToSlackMrkdwn message ;;
                 let call := slack_call token channelName text in
                 await (AwaitFetch call)
                   match fetch call with
                   | Resolved r => Value r
                   | Rejected e => Throw e
                   end)
                (fun _ => ret (errorResponse 503 (str "service_unavailable")
                                 (str "slack_unavailable") (str "Could not reach Slack"))) ;;
            slackResult <- await_slack_json slackResponse ;;
            return_if (500 <=? slack_status slackResponse)%Z
              (errorResponse 503 (str "service_unavailable")
                 (str "slack_unavailable") (str "Slack API is unavailable")) ;;;
            result_ok <- member slackResult "ok" ok ;;
            if negb (ToBoolean (of_member result_ok)) then
              result_error <- member slackResult "error" error ;;
              match result_error with
              | ErrorOther slackError key =>
                  k <- match key with
                       | inr k => pure k
                       | inl e => throw e
                       end ;;
                  let mapped := mapSlackError_untyped slackError k in
                  ret (errorResponse (untyped_status mapped)
                         (str (untyped_category mapped))
                         (untyped_code mapped) (untyped_message mapped))
              | _ =>
                  let mapped := mapSlackError (code_or_unknown result_error) in
                  ret (errorResponse (mapped_status mapped)
                         (str (mapped_category mapped))
                         (str (mapped_code mapped)) (mapped_message mapped))
              end
            else
              result_ts <- member slackResult "ts" ts ;;
              pure {| status := 200;
                      headers := [("Content-Type", "application/json")];
                      body := [("status", str "ok");
                               ("channel", str channelName);
                               ("ts", of_member result_ts)] |}
        end
    end).

End Handler.

End Rich.

(** ** The plain variant: src/modules/sendSlackNotification.ts *)

Module Plain.

Definition plain_response (status : Z) (body : list (string * value)) : Response :=
  {| status := status;
     headers := [("Content-Type", "application/json")];
     body := body |}.

Section Handler.

Variable environment : Environment.
Variable fetch : FetchCall -> FetchResult.

Definition handler (request : Request) : list event * outcome :=
  settle (
    match channel_name request with
    | None | Some "" =>
        ret (plain_response 400 [("error", str "Missing channel_name")])
    | Some channelName =>
        body <- try_catch (await_request_json request)
                  (fun _ => ret (plain_response 400 [("error", str "Invalid JSON body")])) ;;
        let message := body_message body in
        return_if (negb (ToBoolean message))
          (plain_response 400 [("error", str "Missing 'message' field")]) ;;;
        match SLACK_BOT_TOKEN environment with
        | None | Some "" =>
            ret (plain_response 500 [("error", str "SLACK_BOT_TOKEN not configured")])
        | Some token =>
            slackResponse <-
              try_catch
                (text <- call_markdownToSlackMrkdwn message ;;
                 let call := slack_call token channelName text in
                 await (AwaitFetch call)
                   match fetch call with
                   | Resolved r => Value r
                   | Rejected e => Throw e
                   end)
                (fun err => ret (plain_response 502
                                   [("error", str "Failed to reach Slack API");
                                    ("details", str (error_message err))])) ;;
            slackResult <- await_slack_json slackResponse ;;
            result_ok <- member slackResult "ok" ok ;;
            if negb (ToBoolean (of_member result_ok)) then
              result_error <- member slackResult "error" error ;;
              ret (plain_response 500
                     [("error", str "Slack API error");
                      ("slack_error", error_value result_error)])
            else
              result_ts <- member slackResult "ts" ts ;;
              pure (plain_response 200
                      [("status", str "ok");
                       ("channel", str channelName);
                       ("ts", of_member result_ts)])
        end
    end).

End Handler.

End Plain.

(** ** The link syntax, stated apart from the matcher *)

Definition markdown_link (label url : string) : string :=
  "[" ++ label ++ "](" ++ url ++ ")".

Definition slack_link (label url : string) : string :=
  "<" ++ url ++ "|" ++ label ++ ">".

(** A label is any run of units with no closing bracket. *)
Definition label_ok (label : string) : Prop :=
  Str.all (Str.is_not "]") label = true.

(** A url is [http://] or [https://], then at least one unit, none of them
    a closing parenthesis. *)
Definition url_ok (url : string) : Prop :=
  exists tail,
    (url = "http://" ++ tail \/ url = "https://" ++ tail) /\
    tail <> "" /\
    Str.all (Str.is_not ")") tail = true.

(** The url as the specification words it: it begins with [http://] or
    [https://] and has no closing parenthesis. *)
Definition url_as_specified (url : string) : Prop :=
  (prefix "http://" url = true \/ prefix "https://" url = true) /\
  Str.all (Str.is_not ")") url = true.

(** [text] has a substring that is a link. *)
Definition contains_link (text : string) : Prop :=
  exists before label url after,
    label_ok label /\ url_ok url /\
    text = before ++ markdown_link label url ++ after.

(** One attempt of the pattern at the head of [s], read off directly: the
    label runs to the first closing bracket, the url to the first closing
    parenthesis.  Gives label, url and what follows the match. *)
Definition scan_link (s : string) : option (string * string * string) :=
  match Str.strip "[" s with
  | None => None
  | Some s1 =>
      match Str.strip "](http" (Str.drop_while (Str.is_not "]") s1) with
      | None => None
      | Some s2 =>
          let (scheme, s3) :=
            match Str.strip "s" s2 with
            | Some t => ("https", t)
            | None => ("http", s2)
            end in
          match Str.strip "://" s3 with
          | None => None
          | Some s4 =>
              match Str.take_while (Str.is_not ")") s4 with
              | "" => None
              | tail =>
                  match Str.strip ")" (Str.drop_while (Str.is_not ")") s4) with
                  | None => None
                  | Some rest =>
                      Some (Str.take_while (Str.is_not "]") s1,
                            scheme ++ "://" ++ tail, rest)
                  end
              end
          end
      end
  end.

(** Some position of [text] starts a link. *)
Fixpoint has_link (text : string) : bool :=
  match scan_link text with
  | Some _ => true
  | None =>
      match text with
      | String _ text' => has_link text'
      | "" => false
      end
  end.

(** The scan from left to right, stated apart from the matcher:
    [scan_to stop text out] says that the scan of [text] arrives at its
    suffix [stop] having written [out].  Where a link starts at the scan
    position, [<url|label>] is written and the scan goes on right behind
    the link; where none starts, one unit is copied.  With [stop] empty the
    whole text is scanned. *)
Inductive scan_to (stop : string) : string -> string -> Prop :=
  | scan_arrived : scan_to stop stop ""
  | scan_link_step label url rest out :
      label_ok label -> url_ok url ->
      scan_to stop rest out ->
      scan_to stop (markdown_link label url ++ rest) (slack_link label url ++ out)
  | scan_copy_step x s out :
      (forall label url rest,
         label_ok label -> url_ok url ->
         String x s <> markdown_link label url ++ rest) ->
      scan_to stop s out ->
      scan_to stop (String x s) (String x out).

(** A message cut into plain text and links. *)
Inductive segment : Type :=
  | Text (t : string)
  | Link (label url : string).

Definition segment_ok (g : segment) : Prop :=
  match g with
  | Text t => Str.all (Str.is_not "[") t = true
  | Link label url => label_ok label /\ url_ok url
  end.

Fixpoint as_markdown (doc : list segment) : string :=
  match doc with
  | [] => ""
  | Text t :: doc' => t ++ as_markdown doc'
  | Link label url :: doc' => markdown_link label url ++ as_markdown doc'
  end.

Fixpoint as_mrkdwn (doc : list segment) : string :=
  match doc with
  | [] => ""
  | Text t :: doc' => t ++ as_mrkdwn doc'
  | Link label url :: doc' => slack_link label url ++ as_mrkdwn doc'
  end.

(** ** Vocabulary of the statements *)

(** The request passes the validator: a channel name, a body that parses,
    and a truthy [message] in it. *)
Definition valid_request (request : Request) (channelName : string)
    (message : value) : Prop :=
  channel_name request = Some channelName /\
  channelName <> "" /\
  (exists b, request_json request = Some b /\ body_message b = message) /\
  ToBoolean message = true.

(** The bot token is set and not empty. *)
Definition configured (environment : Environment) (token : string) : Prop :=
  SLACK_BOT_TOKEN environment = Some token /\ token <> "".

(** The success envelope [{status: "ok", channel, ts}] with status 200. *)
Definition success_envelope (channelName : string) (ts : option json) : Response :=
  {| status := 200;
     headers := [("Content-Type", "application/json")];
     body := [("status", str "ok"); ("channel", str channelName);
              ("ts", of_member ts)] |}.

(** The three awaits of a relayed message, and the two of a failed fetch. *)
Definition relayed (call : FetchCall) : list event :=
  [AwaitRequestJson; AwaitFetch call; AwaitSlackJson].

Definition attempted (call : FetchCall) : list event :=
  [AwaitRequestJson; AwaitFetch call].

(** Concrete requests, environments and replies. *)
Module Sample.

Definition environment : Environment := {| SLACK_BOT_TOKEN := Some "xoxb-1" |}.

Definition no_token : Environment := {| SLACK_BOT_TOKEN := None |}.

Definition request (channel : string) (b : json) : Request :=
  {| params := Some [("channel_name", channel)]; request_json := Some b |}.

Definition no_channel (b : option json) : Request :=
  {| params := Some []; request_json := b |}.

Definition message_body (text : string) : json := JObj [("message", JStr text)].

Definition reply (status : Z) (b : SlackBody) : FetchCall -> FetchResult :=
  fun _ => Resolved {| slack_status := status; slack_body := b |}.

Definition unreachable (reason : string) : FetchCall -> FetchResult :=
  fun _ => Rejected {| error_name := "TypeError"; error_message := reason |}.

Definition posted : SlackResult :=
  {| ok := Some (JBool true); error := ErrorAbsent; ts := Some (JStr "1234.5678") |}.

Definition refused (code : string) : SlackResult :=
  {| ok := Some (JBool false); error := ErrorCode code; ts := None |}.

End Sample.

(** ** How far a request gets *)

(** Where a handler stops, read off the order of its tests: no channel
    name; a body that does not parse; a falsy [message]; no token; a truthy
    [message] that is not a string; or everything in place for the call. *)
Inductive stage (environment : Environment) (request : Request) : Prop :=
  | Stage_no_channel :
      channel_name request = None \/ channel_name request = Some "" ->
      stage environment request
  | Stage_invalid_body channelName :
      channel_name request = Some channelName -> channelName <> "" ->
      request_json request = None ->
      stage environment request
  | Stage_no_message channelName b :
      channel_name request = Some channelName -> channelName <> "" ->
      request_json request = Some b ->
      ToBoolean (body_message b) = false ->
      stage environment request
  | Stage_no_token channelName message :
      valid_request request channelName message ->
      SLACK_BOT_TOKEN environment = None \/ SLACK_BOT_TOKEN environment = Some "" ->
      stage environment request
  | Stage_not_text channelName token message :
      valid_request request channelName message ->
      configured environment token ->
      (forall text, message <> str text) ->
      stage environment request
  | Stage_deliverable channelName token text :
      valid_request request channelName (str text) ->
      configured environment token ->
      stage environment request.

(** The pairs of status and category of the richer variant's errors. *)
Definition taxonomy : list (Z * string) :=
  [ (400, "client_error"); (403, "forbidden"); (429, "rate_limited");
    (500, "internal_error"); (503, "service_unavailable") ]%Z.

(** The keys of [clientErrors] and [forbiddenErrors], and [rate_limited]. *)
Definition table_codes : list string :=
  [ "channel_not_found"; "not_in_channel"; "invalid_auth"; "not_authed";
    "token_revoked"; "account_inactive"; "missing_scope"; "rate_limited" ].

(** The calls to Slack recorded in a trace. *)
Fixpoint fetches (trace : list event) : list FetchCall :=
  match trace with
  | [] => []
  | AwaitFetch c :: trace' => c :: fetches trace'
  | _ :: trace' => fetches trace'
  end.

(** * Properties *)

(** ** Strings *)

Module StrFacts.
Import Str.

Lemma append_assoc (a b c : string) : (a ++ b) ++ c = a ++ (b ++ c).
Proof. induction a as [|x a IH]; simpl; [reflexivity | now rewrite IH]. Qed.

Lemma append_empty_r (a : string) : a ++ "" = a.
Proof. induction a as [|x a IH]; simpl; [reflexivity | now rewrite IH]. Qed.

Lemma length_append (a b : string) :
  String.length (a ++ b) = String.length a + String.length b.
Proof. induction a as [|x a IH]; simpl; [reflexivity | now rewrite IH]. Qed.

Lemma take_drop_while p s : take_while p s ++ drop_while p s = s.
Proof.
  induction s as [|x s IH]; simpl; [reflexivity|].
  destruct (p x); simpl; [now rewrite IH | reflexivity].
Qed.

Lemma all_take_while p s : all p (take_while p s) = true.
Proof.
  induction s as [|x s IH]; simpl; [reflexivity|].
  destruct (p x) eqn:E; simpl; [now rewrite E | reflexivity].
Qed.

Lemma take_while_all p a x b :
  all p a = true -> p x = false -> take_while p (a ++ String x b) = a.
Proof.
  induction a as [|y a IH]; simpl; intros Ha Hx.
  - now rewrite Hx.
  - apply andb_true_iff in Ha as [Hy Ha]. rewrite Hy. now rewrite IH.
Qed.

Lemma drop_while_all p a x b :
  all p a = true -> p x = false -> drop_while p (a ++ String x b) = String x b.
Proof.
  induction a as [|y a IH]; simpl; intros Ha Hx.
  - now rewrite Hx.
  - apply andb_true_iff in Ha as [Hy Ha]. rewrite Hy. now apply IH.
Qed.

Lemma strip_append p s : strip p (p ++ s) = Some s.
Proof.
  induction p as [|a p IH]; simpl; [reflexivity|].
  now rewrite Ascii.eqb_refl.
Qed.

Lemma strip_inv p s t : strip p s = Some t -> s = p ++ t.
Proof.
  revert s; induction p as [|a p IH]; simpl; intros s H.
  - now inversion H.
  - destruct s as [|c s]; [discriminate|].
    destruct (Ascii.eqb a c) eqn:E; [|discriminate].
    apply Ascii.eqb_eq in E. subst. f_equal. now apply IH.
Qed.

Lemma substring_prefix (a b : string) : substring 0 (String.length a) (a ++ b) = a.
Proof.
  induction a as [|x a IH]; simpl.
  - destruct b; reflexivity.
  - now rewrite IH.
Qed.

Lemma consumed_append (a b : string) : consumed (a ++ b) b = a.
Proof.
  unfold consumed. rewrite length_append.
  replace (String.length a + String.length b - String.length b) with (String.length a) by lia.
  apply substring_prefix.
Qed.

End StrFacts.

Import Str StrFacts.

(** ** The matcher on the link pattern *)

Lemma run_chr c s cs k :
  run (Atom (Chr c)) s cs k =
  match strip (String c "") s with
  | Some s' => k s' cs
  | None => None
  end.
Proof.
  destruct s as [|x s]; simpl; [reflexivity|].
  destruct (Ascii.eqb c x); reflexivity.
Qed.

Lemma run_lit p : forall a s cs k,
  run (lit a p) s cs k =
  match strip (String a p) s with
  | Some s' => k s' cs
  | None => None
  end.
Proof.
  induction p as [|b p IH]; intros a s cs k.
  - apply run_chr.
  - cbn [lit run]. destruct s as [|x s]; [reflexivity|].
    cbn [accepts strip]. destruct (Ascii.eqb a x); [apply IH | reflexivity].
Qed.

Lemma star_not_chr c cs k :
  (forall x s', is_not c x = true -> k (String x s') cs = None) ->
  forall s, star (NotChr c) s cs k = k (drop_while (is_not c) s) cs.
Proof.
  intros Hk s. induction s as [|x s IH]; simpl; [reflexivity|].
  fold (is_not c x). destruct (is_not c x) eqn:E; [|reflexivity].
  rewrite IH. destruct (k (drop_while (is_not c) s) cs) eqn:K; [reflexivity|].
  now apply Hk.
Qed.

Lemma plus_not_chr c cs k :
  (forall x s', is_not c x = true -> k (String x s') cs = None) ->
  forall s, run (Plus (NotChr c)) s cs k =
            match take_while (is_not c) s with
            | "" => None
            | _ => k (drop_while (is_not c) s) cs
            end.
Proof.
  intros Hk s. destruct s as [|x s]; simpl; [reflexivity|].
  fold (is_not c x). destruct (is_not c x) eqn:E; [|reflexivity].
  now apply star_not_chr.
Qed.

Lemma opt_chr c cs k :
  (forall s', k (String c s') cs = None) ->
  forall s, run (Opt (Chr c)) s cs k =
            k (match strip (String c "") s with Some t => t | None => s end) cs.
Proof.
  intros Hk s. destruct s as [|x s]; simpl; [reflexivity|].
  destruct (Ascii.eqb c x) eqn:E; [|reflexivity].
  apply Ascii.eqb_eq in E; subst x.
  destruct (k s cs); [reflexivity | apply Hk].
Qed.

Lemma run_seq r1 r2 s cs k :
  run (Seq r1 r2) s cs k = run r1 s cs (fun s' cs' => run r2 s' cs' k).
Proof. reflexivity. Qed.

Lemma run_group n r s cs k :
  run (Group n r) s cs k = run r s cs (fun s' cs' => k s' ((n, consumed s s') :: cs')).
Proof. reflexivity. Qed.

Lemma run_star a s cs k : run (Star a) s cs k = star a s cs k.
Proof. reflexivity. Qed.

Lemma strip_app p q : forall s,
  strip (p ++ q) s =
  match strip p s with
  | Some s' => strip q s'
  | None => None
  end.
Proof.
  induction p as [|a p IH]; intros s; [reflexivity|].
  destruct s as [|x s]; [reflexivity|].
  cbn [append strip]. destruct (Ascii.eqb a x); [apply IH | reflexivity].
Qed.

Lemma match_here_link s :
  match_here link_pattern s =
  match scan_link s with
  | Some (label, url, rest) => Some ([(2, url); (1, label)], rest)
  | None => None
  end.
Proof.
  unfold match_here, link_pattern, scan_link.
  rewrite run_seq, run_chr.
  destruct (strip "[" s) as [s1|]; [|reflexivity].
  rewrite run_seq, run_group, run_star.
  rewrite star_not_chr.
  2:{ intros x s' Hx. rewrite run_seq, run_chr. cbn [strip]. unfold is_not in Hx.
      apply negb_true_iff in Hx. now rewrite Hx. }
  set (label := take_while (is_not "]") s1).
  assert (Hlabel : consumed s1 (drop_while (is_not "]") s1) = label).
  { rewrite <- (take_drop_while (is_not "]") s1) at 1. apply consumed_append. }
  rewrite Hlabel. clear Hlabel.
  generalize (drop_while (is_not "]") s1). intros r1.
  change "](http" with ("]" ++ ("(" ++ "http")). rewrite strip_app.
  rewrite run_seq, run_chr.
  destruct (strip "]" r1) as [r1'|]; [|reflexivity].
  rewrite strip_app, run_seq, run_chr.
  destruct (strip "(" r1') as [r2|]; [|reflexivity].
  rewrite run_seq, run_group, run_seq, run_lit.
  destruct (strip "http" r2) as [s2|] eqn:Hhttp; [|reflexivity].
  rewrite run_seq, opt_chr.
  2:{ intros s'. rewrite run_seq, run_lit. reflexivity. }
  apply strip_inv in Hhttp. subst r2.
  assert (Hnp : forall (x : ascii) (s' : string) (cs : captures),
             is_not ")" x = true ->
             run (Atom (Chr ")")) (String x s') cs
               (fun s'1 cs0 => Some (cs0, s'1)) = None).
  { intros x s' cs Hx. rewrite run_chr. cbn [strip]. unfold is_not in Hx.
      apply negb_true_iff in Hx. now rewrite Hx. }
  destruct (strip "s" s2) as [t|] eqn:Hs;
    [apply strip_inv in Hs; subst s2|];
    rewrite run_seq, run_lit;
    (match goal with |- context [strip "://" ?u] =>
       destruct (strip "://" u) as [s4|] eqn:Hsep; [|reflexivity] end);
    apply strip_inv in Hsep; subst;
    (rewrite plus_not_chr by (intros; now apply Hnp));
    (destruct (take_while (is_not ")") s4) as [|a tl] eqn:Htail; [reflexivity|]);
    rewrite run_chr;
    (destruct (strip ")" (drop_while (is_not ")") s4)) as [rest|] eqn:Hclose;
       [|reflexivity]);
    do 3 f_equal; f_equal;
    rewrite <- (take_drop_while (is_not ")") s4) at 1; rewrite Htail;
    rewrite <- !append_assoc; apply consumed_append.
Qed.

(** ** The direct reading of the pattern and the link syntax *)

Lemma markdown_link_shape label scheme tail post :
  markdown_link label (scheme ++ "://" ++ tail) ++ post
  = "[" ++ (label ++ String "]" ("(" ++ (scheme ++ ("://" ++ (tail ++ String ")" post))))).
Proof.
  unfold markdown_link.
  repeat (rewrite ?append_assoc; cbn [append]; f_equal).
Qed.

Lemma url_ok_scheme url :
  url_ok url <->
  exists scheme tail,
    (scheme = "http" \/ scheme = "https") /\ url = scheme ++ "://" ++ tail /\
    tail <> "" /\ all (is_not ")") tail = true.
Proof.
  split.
  - intros (tail & [-> | ->] & Hne & Ht);
      [exists "http", tail | exists "https", tail]; auto.
  - intros (scheme & tail & [-> | ->] & -> & Hne & Ht); exists tail; auto.
Qed.

Lemma scan_link_complete label url post :
  label_ok label -> url_ok url ->
  scan_link (markdown_link label url ++ post) = Some (label, url, post).
Proof.
  intros Hl Hu. apply url_ok_scheme in Hu.
  destruct Hu as (scheme & tail & Hscheme & -> & Hne & Ht).
  rewrite markdown_link_shape. unfold scan_link.
  rewrite strip_append.
  rewrite drop_while_all, take_while_all by (assumption || reflexivity).
  assert (Hs : strip "](http" (String "]" ("(" ++ scheme ++ "://" ++ tail ++ String ")" post))
               = Some (match scheme with
                       | "http" => ""
                       | _ => "s"
                       end ++ "://" ++ tail ++ String ")" post)).
  { destruct Hscheme as [-> | ->]; reflexivity. }
  rewrite Hs; clear Hs.
  assert (Hopt : match strip "s" (match scheme with "http" => "" | _ => "s" end
                                  ++ "://" ++ tail ++ String ")" post) with
                 | Some t => ("https", t)
                 | None => ("http", match scheme with "http" => "" | _ => "s" end
                                  ++ "://" ++ tail ++ String ")" post)
                 end = (scheme, "://" ++ tail ++ String ")" post)).
  { destruct Hscheme as [-> | ->]; reflexivity. }
  rewrite Hopt; clear Hopt.
  rewrite strip_append.
  rewrite drop_while_all, take_while_all by (assumption || reflexivity).
  destruct tail as [|a tl]; [congruence|].
  change (String ")" post) with (")" ++ post). rewrite strip_append. reflexivity.
Qed.

Lemma scan_link_sound s label url rest :
  scan_link s = Some (label, url, rest) ->
  s = markdown_link label url ++ rest /\ label_ok label /\ url_ok url.
Proof.
  unfold scan_link.
  destruct (strip "[" s) as [s1|] eqn:H1; [|discriminate].
  destruct (strip "](http" (drop_while (is_not "]") s1)) as [s2|] eqn:H2; [|discriminate].
  set (scheme := match strip "s" s2 with Some _ => "https" | None => "http" end).
  set (s3 := match strip "s" s2 with Some t => t | None => s2 end).
  assert (Hs2 : "http" ++ s2 = scheme ++ s3).
  { subst scheme s3. destruct (strip "s" s2) as [t|] eqn:Hs; [|reflexivity].
    apply strip_inv in Hs. now subst s2. }
  assert (Hscheme : scheme = "http" \/ scheme = "https").
  { subst scheme. destruct (strip "s" s2); auto. }
  replace (match strip "s" s2 with Some t => ("https", t) | None => ("http", s2) end)
    with (scheme, s3) by (subst scheme s3; destruct (strip "s" s2); reflexivity).
  destruct (strip "://" s3) as [s4|] eqn:H4; [|discriminate].
  destruct (take_while (is_not ")") s4) as [|a tl] eqn:Htail; [discriminate|].
  destruct (strip ")" (drop_while (is_not ")") s4)) as [rest'|] eqn:H5; [|discriminate].
  intros H; inversion H; subst label url rest'; clear H.
  apply strip_inv in H1, H2, H4, H5.
  split; [|split].
  - etransitivity;
      [|symmetry; apply (markdown_link_shape _ scheme (String a tl) rest)].
    rewrite H1. f_equal.
    rewrite <- (take_drop_while (is_not "]") s1) at 1. f_equal.
    rewrite H2.
    change ("](http" ++ s2) with (String "]" ("(" ++ ("http" ++ s2))).
    rewrite Hs2, H4. do 4 f_equal.
    rewrite <- (take_drop_while (is_not ")") s4) at 1. rewrite Htail, H5. reflexivity.
  - apply all_take_while.
  - apply url_ok_scheme. exists scheme, (String a tl). repeat split; auto.
    + discriminate.
    + rewrite <- Htail. apply all_take_while.
Qed.

(** ** The transformer *)

Lemma replace_from_skip r f w : forall rest,
  replace_from r f (String.length w) (w ++ rest) = replace_from r f 0 rest.
Proof.
  induction w as [|x w IH]; intros rest; [reflexivity|].
  cbn [String.length append replace_from]. apply IH.
Qed.

Lemma md_empty : markdownToSlackMrkdwn "" = "".
Proof. reflexivity. Qed.

Lemma md_link_found s label url rest :
  scan_link s = Some (label, url, rest) ->
  markdownToSlackMrkdwn s = slack_link label url ++ markdownToSlackMrkdwn rest.
Proof.
  intros Hscan. destruct (scan_link_sound _ _ _ _ Hscan) as (Hs & _ & _).
  subst s. unfold markdownToSlackMrkdwn, replace_all.
  set (w := label ++ "](" ++ url ++ ")").
  change (markdown_link label url ++ rest) with (String "[" (w ++ rest)) in *.
  cbn [replace_from]. rewrite match_here_link, Hscan.
  change (String "[" (w ++ rest)) with (String "[" w ++ rest).
  rewrite consumed_append. cbn [String.length].
  rewrite replace_from_skip. reflexivity.
Qed.

Lemma md_no_link_here x s :
  scan_link (String x s) = None ->
  markdownToSlackMrkdwn (String x s) = String x (markdownToSlackMrkdwn s).
Proof.
  intros Hscan. unfold markdownToSlackMrkdwn, replace_all.
  cbn [replace_from]. rewrite match_here_link, Hscan. reflexivity.
Qed.

Lemma scan_link_not_bracket x s : is_not "[" x = true -> scan_link (String x s) = None.
Proof.
  intros Hx. unfold scan_link. cbn [strip].
  unfold is_not in Hx. apply negb_true_iff in Hx. now rewrite Hx.
Qed.

Lemma md_plain_prefix t : forall s,
  all (is_not "[") t = true ->
  markdownToSlackMrkdwn (t ++ s) = t ++ markdownToSlackMrkdwn s.
Proof.
  induction t as [|x t IH]; intros s Ht; [reflexivity|].
  cbn [all] in Ht. apply andb_true_iff in Ht as [Hx Ht].
  cbn [append]. rewrite md_no_link_here by now apply scan_link_not_bracket.
  now rewrite IH.
Qed.

Lemma md_link_prefix label url s :
  label_ok label -> url_ok url ->
  markdownToSlackMrkdwn (markdown_link label url ++ s)
  = slack_link label url ++ markdownToSlackMrkdwn s.
Proof.
  intros Hl Hu. apply md_link_found. now apply scan_link_complete.
Qed.

Lemma has_link_suffix before : forall s,
  has_link (before ++ s) = false -> has_link s = false.
Proof.
  induction before as [|x b IH]; intros s H; [exact H|].
  cbn [append has_link] in H.
  destruct (scan_link (String x (b ++ s))); [discriminate|]. now apply IH.
Qed.

Lemma has_link_here s : has_link s = false -> scan_link s = None.
Proof.
  destruct s; cbn [has_link]; destruct (scan_link _); congruence.
Qed.

Lemma has_link_spec text : has_link text = false <-> ~ contains_link text.
Proof.
  split.
  - intros H (before & label & url & after & Hl & Hu & ->).
    apply has_link_suffix, has_link_here in H.
    rewrite scan_link_complete in H by assumption. discriminate.
  - induction text as [|x t IH]; intros H.
    + reflexivity.
    + cbn [has_link]. destruct (scan_link (String x t)) as [[[label url] rest]|] eqn:E.
      * exfalso. apply H. apply scan_link_sound in E as (Hs & Hl & Hu).
        exists "", label, url, rest. auto.
      * apply IH. intros (before & label & url & after & Hl & Hu & ->).
        apply H. exists (String x before), label, url, after. auto.
Qed.

Lemma md_without_link text : has_link text = false -> markdownToSlackMrkdwn text = text.
Proof.
  induction text as [|x t IH]; intros H; [reflexivity|].
  pose proof (has_link_here _ H) as Hscan.
  rewrite md_no_link_here by assumption. f_equal. apply IH.
  cbn [has_link] in H. now rewrite Hscan in H.
Qed.

Lemma md_document_prefix doc : forall rest,
  Forall segment_ok doc ->
  markdownToSlackMrkdwn (as_markdown doc ++ rest)
  = as_mrkdwn doc ++ markdownToSlackMrkdwn rest.
Proof.
  induction doc as [|g doc IH]; intros rest Hdoc; [reflexivity|].
  inversion Hdoc as [|g' doc' Hg Hdoc']; subst.
  destruct g as [t|label url]; cbn [as_markdown as_mrkdwn segment_ok] in *;
    rewrite !append_assoc.
  - rewrite md_plain_prefix by assumption. now rewrite IH.
  - destruct Hg as [Hl Hu]. rewrite md_link_prefix by assumption. now rewrite IH.
Qed.

Example md_two_links :
  markdownToSlackMrkdwn "[a](http://x) and [b](https://y)!"
  = "<http://x|a> and <https://y|b>!".
Proof. reflexivity. Qed.

Example md_formatting_kept :
  markdownToSlackMrkdwn "*bold* _italic_ ~~struck~~ `code`"
  = "*bold* _italic_ ~~struck~~ `code`".
Proof. reflexivity. Qed.

(** A url in the sense of the pattern is one in the sense of the
    specification's wording; the converse fails at the bare scheme. *)
Lemma url_ok_as_specified url : url_ok url -> url_as_specified url.
Proof.
  intros (tail & [-> | ->] & _ & Ht); (split; [|exact Ht]).
  - left. clear Ht. destruct tail; reflexivity.
  - right. clear Ht. destruct tail; reflexivity.
Qed.

(** The scan relation and the transformer. *)
Lemma scan_copy_here stop x s out :
  scan_link (String x s) = None ->
  scan_to stop s out ->
  scan_to stop (String x s) (String x out).
Proof.
  intros Hscan H. apply scan_copy_step; [|exact H].
  intros label url rest Hl Hu Heq.
  rewrite Heq, scan_link_complete in Hscan by assumption. discriminate.
Qed.

Lemma scan_to_output stop text out :
  scan_to stop text out ->
  markdownToSlackMrkdwn text = out ++ markdownToSlackMrkdwn stop.
Proof.
  induction 1 as [|label url rest out Hl Hu _ IH|x s out Hno _ IH].
  - reflexivity.
  - rewrite md_link_prefix by assumption. rewrite IH. now rewrite append_assoc.
  - rewrite md_no_link_here.
    + rewrite IH. reflexivity.
    + destruct (scan_link (String x s)) as [[[label url] rest]|] eqn:E; [|reflexivity].
      apply scan_link_sound in E as (Hs & Hl & Hu).
      now destruct (Hno label url rest Hl Hu).
Qed.

Lemma scan_to_end_bounded n : forall text,
  String.length text <= n -> scan_to "" text (markdownToSlackMrkdwn text).
Proof.
  induction n as [|n IH]; intros text Hn.
  - destruct text; [apply scan_arrived | cbn in Hn; lia].
  - destruct text as [|x s]; [apply scan_arrived|].
    destruct (scan_link (String x s)) as [[[label url] rest]|] eqn:E.
    + rewrite (md_link_found _ _ _ _ E).
      apply scan_link_sound in E as (Hs & Hl & Hu). rewrite Hs.
      apply scan_link_step; try assumption. apply IH.
      rewrite Hs in Hn. rewrite length_append in Hn.
      unfold markdown_link in Hn. cbn [append String.length] in Hn. lia.
    + rewrite md_no_link_here by assumption.
      apply scan_copy_here; [assumption|]. apply IH. cbn in Hn. lia.
Qed.

Lemma scan_to_end text : scan_to "" text (markdownToSlackMrkdwn text).
Proof. apply (scan_to_end_bounded (String.length text)). apply le_n. Qed.

(** ** Claims about the transformer *)

(** C2, as the specification words it, fails twice.  The text
    [[a](http://)] is an occurrence of the pattern as described (the label
    has no closing bracket, the url begins with [http://] and has no
    closing parenthesis), and the transformer leaves it as it is instead of
    writing [<http://|a>]: the pattern asks for at least one unit after the
    two slashes.  And the occurrence [[b](http://x)] inside [[a[b](http://x)]
    is not rewritten to [<http://x|b>]: it starts inside an earlier match,
    whose label runs over its opening bracket. *)
Lemma not_every_described_occurrence_rewritten :
  (label_ok "a" /\ url_as_specified "http://" /\
   markdownToSlackMrkdwn (markdown_link "a" "http://") = markdown_link "a" "http://" /\
   markdownToSlackMrkdwn (markdown_link "a" "http://") <> slack_link "a" "http://") /\
  (label_ok "b" /\ url_as_specified "http://x" /\
   markdownToSlackMrkdwn ("[a" ++ markdown_link "b" "http://x") = "<http://x|a[b>" /\
   markdownToSlackMrkdwn ("[a" ++ markdown_link "b" "http://x")
   <> "[a" ++ slack_link "b" "http://x").
Proof.
  repeat split; try reflexivity; try discriminate; left; reflexivity.
Qed.

(** C2, amended: the transformer scans the text from left to right.  Where
    an occurrence of [[label](url)] starts at the scan position (the label
    has no closing bracket, the url is [http://] or [https://] followed by
    at least one unit, none of them a closing parenthesis) it writes
    [<url|label>] and goes on right behind the occurrence; elsewhere it
    copies one unit and goes on.  So every occurrence the scan arrives at
    is rewritten, not only the first, and text around it, stray brackets
    included, is kept; its output is the one text this scan writes.  In
    particular the message of the specification's example becomes
    [See <https://example.com/a|docs> now]. *)
Theorem transformer_rewrites_every_link (text out : string) :
  (scan_to "" text out <-> markdownToSlackMrkdwn text = out) /\
  markdownToSlackMrkdwn "See [docs](https://example.com/a) now"
  = "See <https://example.com/a|docs> now".
Proof.
  split; [|reflexivity]. split.
  - intros H. apply scan_to_output in H.
    rewrite H, md_empty. apply append_empty_r.
  - intros <-. apply scan_to_end.
Qed.

Lemma transformer_rewrites_every_link_witness :
  scan_to ""
    "[x] see [docs](https://example.com/a) and [more](http://example.org/b?c=d) now"
    "[x] see <https://example.com/a|docs> and <http://example.org/b?c=d|more> now" /\
  markdownToSlackMrkdwn
    "[x] see [docs](https://example.com/a) and [more](http://example.org/b?c=d) now"
  = "[x] see <https://example.com/a|docs> and <http://example.org/b?c=d|more> now".
Proof.
  assert (H : scan_to ""
    "[x] see [docs](https://example.com/a) and [more](http://example.org/b?c=d) now"
    "[x] see <https://example.com/a|docs> and <http://example.org/b?c=d|more> now").
  { repeat (apply scan_copy_here; [reflexivity|]).
    apply (scan_link_step "" "docs" "https://example.com/a"
             " and [more](http://example.org/b?c=d) now"
             " and <http://example.org/b?c=d|more> now").
    - reflexivity.
    - exists "example.com/a". repeat split; [right; reflexivity | discriminate].
    - repeat (apply scan_copy_here; [reflexivity|]).
      apply (scan_link_step "" "more" "http://example.org/b?c=d" " now" " now").
      + reflexivity.
      + exists "example.org/b?c=d". repeat split; [left; reflexivity | discriminate].
      + repeat (apply scan_copy_here; [reflexivity|]). apply scan_arrived. }
  split; [exact H|].
  exact (proj1 (proj1 (transformer_rewrites_every_link _ _)) H).
Defined.

(** C9: on a text with no substring that is a link, the transformer is the
    identity, whatever other formatting (bold, italic, strikethrough,
    inline code, fenced code) the text has; so applying it twice is the
    same as applying it once. *)
Theorem transformer_identity_without_link (text : string) :
  ~ contains_link text ->
  markdownToSlackMrkdwn text = text /\
  markdownToSlackMrkdwn (markdownToSlackMrkdwn text) = markdownToSlackMrkdwn text.
Proof.
  intros H. apply has_link_spec in H.
  rewrite !(md_without_link text H). split; reflexivity.
Qed.

Lemma transformer_identity_without_link_witness :
  ~ contains_link "*bold* _italic_ ~~struck~~ `code` ```fenced [x] (y)``` [z](ftp://w)" /\
  markdownToSlackMrkdwn "*bold* _italic_ ~~struck~~ `code` ```fenced [x] (y)``` [z](ftp://w)"
  = "*bold* _italic_ ~~struck~~ `code` ```fenced [x] (y)``` [z](ftp://w)" /\
  markdownToSlackMrkdwn
    (markdownToSlackMrkdwn
       "*bold* _italic_ ~~struck~~ `code` ```fenced [x] (y)``` [z](ftp://w)")
  = markdownToSlackMrkdwn
      "*bold* _italic_ ~~struck~~ `code` ```fenced [x] (y)``` [z](ftp://w)".
Proof.
  assert (H : ~ contains_link
                "*bold* _italic_ ~~struck~~ `code` ```fenced [x] (y)``` [z](ftp://w)")
    by (apply has_link_spec; reflexivity).
  split; [exact H|].
  exact (transformer_identity_without_link _ H).
Defined.

(** C10, as stated, fails twice.  The url [http://] begins with [http://]
    and has no closing parenthesis, yet [[](http://)] is not rewritten;
    and an occurrence of [[](http://a)] that starts inside an earlier match
    is not rewritten to [<http://a|>] but belongs to that match. *)
Lemma empty_label_not_always_rewritten :
  (url_as_specified "http://" /\
   markdownToSlackMrkdwn (markdown_link "" "http://") = markdown_link "" "http://" /\
   markdownToSlackMrkdwn (markdown_link "" "http://") <> slack_link "" "http://") /\
  (url_as_specified "http://a" /\
   markdownToSlackMrkdwn ("[x" ++ markdown_link "" "http://a") = "<http://a|x[>" /\
   markdownToSlackMrkdwn ("[x" ++ markdown_link "" "http://a")
   <> "[x" ++ slack_link "" "http://a").
Proof.
  repeat split; try reflexivity; try discriminate; left; reflexivity.
Qed.

(** C10, amended: the transformer accepts an empty label.  For every url
    [u] made of [http://] or [https://] and at least one more unit, with no
    closing parenthesis, an occurrence of [[](u)] at which the scan from
    the left arrives (one that does not begin inside an earlier match;
    what precedes it may hold links and stray brackets) is rewritten to
    [<u|>], and the scan goes on behind it. *)
Theorem transformer_accepts_empty_label (text out u rest : string) :
  url_ok u ->
  scan_to ("[](" ++ u ++ ")" ++ rest) text out ->
  markdownToSlackMrkdwn text = out ++ "<" ++ u ++ "|>" ++ markdownToSlackMrkdwn rest.
Proof.
  intros Hu H. apply scan_to_output in H. rewrite H. f_equal.
  assert (Hl : label_ok "") by reflexivity.
  pose proof (md_link_prefix "" u rest Hl Hu) as Hlink.
  unfold markdown_link, slack_link in Hlink. cbn [append] in *.
  rewrite !append_assoc in Hlink. cbn [append] in Hlink. exact Hlink.
Qed.

Lemma transformer_accepts_empty_label_witness :
  url_ok "https://example.com" /\
  scan_to "[](https://example.com)!" "[x] [a](http://b) [](https://example.com)!"
    "[x] <http://b|a> " /\
  markdownToSlackMrkdwn "[x] [a](http://b) [](https://example.com)!"
  = "[x] <http://b|a> <https://example.com|>!".
Proof.
  assert (Hu : url_ok "https://example.com").
  { exists "example.com". repeat split; [right; reflexivity | discriminate]. }
  assert (H : scan_to "[](https://example.com)!"
                "[x] [a](http://b) [](https://example.com)!" "[x] <http://b|a> ").
  { repeat (apply scan_copy_here; [reflexivity|]).
    apply (scan_link_step _ "a" "http://b" " [](https://example.com)!" " ").
    - reflexivity.
    - exists "b". repeat split; [left; reflexivity | discriminate].
    - apply scan_copy_here; [reflexivity|]. apply scan_arrived. }
  split; [exact Hu|]. split; [exact H|].
  exact (transformer_accepts_empty_label
           "[x] [a](http://b) [](https://example.com)!" "[x] <http://b|a> "
           "https://example.com" "!" Hu H).
Defined.

(** ** The handlers after validation *)

Arguments markdownToSlackMrkdwn : simpl never.

(** A name known to be non-empty is split into its first unit and the
    rest, so that the tests of the handlers on it reduce. *)
Ltac nonempty :=
  repeat match goal with
         | H : ?c <> "" |- _ => is_var c; destruct c; [congruence|]
         end.

(** Runs [await request.json()] on a body known to parse. *)
Ltac parse_body Hb :=
  unfold await_request_json; rewrite Hb; cbn [try_catch await bind].

(** What the richer handler does with a valid request and a token: one
    fetch, then the reply decides. *)
Lemma rich_delivered environment fetch request channelName token text :
  valid_request request channelName (str text) ->
  configured environment token ->
  let call := slack_call token channelName (markdownToSlackMrkdwn text) in
  Rich.handler environment fetch request =
  match fetch call with
  | Rejected e =>
      (attempted call,
       Returned (Rich.errorResponse 503 (str "service_unavailable")
                   (str "slack_unavailable") (str "Could not reach Slack")))
  | Resolved r =>
      (relayed call,
       match slack_body r with
       | NotJson e => Threw e
       | NullBody =>
           if (500 <=? slack_status r)%Z then
             Returned (Rich.errorResponse 503 (str "service_unavailable")
                         (str "slack_unavailable") (str "Slack API is unavailable"))
           else Threw (null_member "ok")
       | Body res =>
           if (500 <=? slack_status r)%Z then
             Returned (Rich.errorResponse 503 (str "service_unavailable")
                         (str "slack_unavailable") (str "Slack API is unavailable"))
           else if negb (ToBoolean (of_member (ok res))) then
             match error res with
             | ErrorOther j (inl e) => Threw e
             | ErrorOther j (inr k) =>
                 let mapped := Rich.mapSlackError_untyped j k in
                 Returned (Rich.errorResponse (Rich.untyped_status mapped)
                             (str (Rich.untyped_category mapped))
                             (Rich.untyped_code mapped)
                             (Rich.untyped_message mapped))
             | code =>
                 let mapped := Rich.mapSlackError (Rich.code_or_unknown code) in
                 Returned (Rich.errorResponse (Rich.mapped_status mapped)
                             (str (Rich.mapped_category mapped))
                             (str (Rich.mapped_code mapped))
                             (Rich.mapped_message mapped))
             end
           else Returned (success_envelope channelName (ts res))
       end)
  end.
Proof.
  intros (Hch & Hne & (b & Hb & Hm) & Ht) (Htok & Htne) call.
  unfold Rich.handler. rewrite Hch, Htok. nonempty.
  parse_body Hb. rewrite Hm, Ht.
  cbn -[Z.leb Rich.mapSlackError Rich.mapSlackError_untyped]. fold call.
  destruct (fetch call) as [e|r]; [reflexivity|].
  cbn -[Z.leb Rich.mapSlackError Rich.mapSlackError_untyped]. unfold await_slack_json.
  destruct (slack_body r) as [e| |res];
    cbn -[Z.leb Rich.mapSlackError Rich.mapSlackError_untyped].
  - reflexivity.
  - destruct (500 <=? slack_status r)%Z; reflexivity.
  - destruct (500 <=? slack_status r)%Z; [reflexivity|].
    cbn -[Rich.mapSlackError Rich.mapSlackError_untyped].
    destruct (ToBoolean (of_member (ok res))); [reflexivity|].
    destruct (error res) as [| | code | j [e|k]]; reflexivity.
Qed.

(** The same for the plain handler: the status of the reply is not read. *)
Lemma plain_delivered environment fetch request channelName token text :
  valid_request request channelName (str text) ->
  configured environment token ->
  let call := slack_call token channelName (markdownToSlackMrkdwn text) in
  Plain.handler environment fetch request =
  match fetch call with
  | Rejected e =>
      (attempted call,
       Returned (Plain.plain_response 502
                   [("error", str "Failed to reach Slack API");
                    ("details", str (error_message e))]))
  | Resolved r =>
      (relayed call,
       match slack_body r with
       | NotJson e => Threw e
       | NullBody => Threw (null_member "ok")
       | Body res =>
           if negb (ToBoolean (of_member (ok res))) then
             Returned (Plain.plain_response 500
                         [("error", str "Slack API error");
                          ("slack_error", error_value (error res))])
           else Returned (success_envelope channelName (ts res))
       end)
  end.
Proof.
  intros (Hch & Hne & (b & Hb & Hm) & Ht) (Htok & Htne) call.
  unfold Plain.handler. rewrite Hch, Htok. nonempty.
  parse_body Hb. rewrite Hm, Ht.
  cbn. fold call.
  destruct (fetch call) as [e|r]; [reflexivity|].
  cbn. unfold await_slack_json.
  destruct (slack_body r) as [e| |res]; cbn; try reflexivity.
  destruct (ToBoolean (of_member (ok res))); reflexivity.
Qed.

(** A truthy [message] that is not a string has no [replace] method: the
    error is thrown inside the [try] around the fetch, so it is reported as
    a failure to reach Slack and no call is made. *)
Example number_message_never_sent :
  Rich.handler Sample.environment (Sample.reply 200 (Body Sample.posted))
    (Sample.request "general" (JObj [("message", JNum (S754_finite false 5 0))]))
  = ([AwaitRequestJson],
     Returned (Rich.errorResponse 503 (str "service_unavailable")
                 (str "slack_unavailable") (str "Could not reach Slack"))) /\
  Plain.handler Sample.environment (Sample.reply 200 (Body Sample.posted))
    (Sample.request "general" (JObj [("message", JNum (S754_finite false 5 0))]))
  = ([AwaitRequestJson],
     Returned (Plain.plain_response 502
                 [("error", str "Failed to reach Slack API");
                  ("details", str "text.replace is not a function")])).
Proof. split; reflexivity. Qed.

(** A sample request that passes the validator, and a sample token. *)
Lemma sample_request_valid channel text :
  channel <> "" -> text <> "" ->
  valid_request (Sample.request channel (Sample.message_body text)) channel (str text).
Proof.
  intros Hc Ht. unfold valid_request, Sample.request, channel_name. cbn.
  repeat split; try assumption.
  - exists (Sample.message_body text). split; reflexivity.
  - destruct text; [congruence | reflexivity].
Qed.

Lemma sample_environment_configured : configured Sample.environment "xoxb-1".
Proof. split; [reflexivity | discriminate]. Qed.

(** ** Claims about the error mapper *)

(** The rows of the table: the code is kept, status, category and message
    are the tabulated ones. *)
Lemma mapSlackError_table :
  Rich.mapSlackError "channel_not_found"
  = {| Rich.mapped_status := 400; Rich.mapped_category := "client_error";
       Rich.mapped_code := "channel_not_found";
       Rich.mapped_message := str "Channel not found" |} /\
  Rich.mapSlackError "not_in_channel"
  = {| Rich.mapped_status := 400; Rich.mapped_category := "client_error";
       Rich.mapped_code := "not_in_channel";
       Rich.mapped_message := str "Bot is not in that channel" |} /\
  Rich.mapSlackError "invalid_auth"
  = {| Rich.mapped_status := 403; Rich.mapped_category := "forbidden";
       Rich.mapped_code := "invalid_auth";
       Rich.mapped_message := str "Invalid Slack token" |} /\
  Rich.mapSlackError "not_authed"
  = {| Rich.mapped_status := 403; Rich.mapped_category := "forbidden";
       Rich.mapped_code := "not_authed";
       Rich.mapped_message := str "Not authenticated" |} /\
  Rich.mapSlackError "token_revoked"
  = {| Rich.mapped_status := 403; Rich.mapped_category := "forbidden";
       Rich.mapped_code := "token_revoked";
       Rich.mapped_message := str "Slack token revoked" |} /\
  Rich.mapSlackError "account_inactive"
  = {| Rich.mapped_status := 403; Rich.mapped_category := "forbidden";
       Rich.mapped_code := "account_inactive";
       Rich.mapped_message := str "Slack app inactive" |} /\
  Rich.mapSlackError "missing_scope"
  = {| Rich.mapped_status := 403; Rich.mapped_category := "forbidden";
       Rich.mapped_code := "missing_scope";
       Rich.mapped_message := str "Bot missing required scope" |} /\
  Rich.mapSlackError "rate_limited"
  = {| Rich.mapped_status := 429; Rich.mapped_category := "rate_limited";
       Rich.mapped_code := "rate_limited";
       Rich.mapped_message := str "Slack rate limit exceeded" |} /\
  Rich.mapSlackError "unknown"
  = {| Rich.mapped_status := 500; Rich.mapped_category := "internal_error";
       Rich.mapped_code := "slack_error";
       Rich.mapped_message := str "Slack API error" |}.
Proof. repeat split. Qed.

(** A code that is neither a row of the table nor the name of a member of
    [Object.prototype] gets the last line of the mapper. *)
Lemma mapSlackError_unlisted (slackError : string) :
  ~ In slackError
      ["channel_not_found"; "not_in_channel"; "invalid_auth"; "not_authed";
       "token_revoked"; "account_inactive"; "missing_scope"; "rate_limited"] ->
  own Object_prototype slackError = None ->
  Rich.mapSlackError slackError
  = {| Rich.mapped_status := 500; Rich.mapped_category := "internal_error";
       Rich.mapped_code := "slack_error";
       Rich.mapped_message := str "Slack API error" |}.
Proof.
  intros Hrow Hproto.
  assert (Hne : forall k,
             In k ["channel_not_found"; "not_in_channel"; "invalid_auth"; "not_authed";
                   "token_revoked"; "account_inactive"; "missing_scope"; "rate_limited"] ->
             (k =? slackError) = false).
  { intros k Hk. apply String.eqb_neq. intros ->. now apply Hrow. }
  unfold Rich.mapSlackError, lookup, Rich.clientErrors, Rich.forbiddenErrors, literal.
  cbn [map own fst snd].
  rewrite !Hne by (cbn [In]; tauto).
  rewrite Hproto. cbn [ToBoolean].
  rewrite String.eqb_sym, Hne by (cbn [In]; tauto).
  reflexivity.
Qed.

(** C1: at the error code [constructor] the mapper does not take its last
    line.  [clientErrors] is an object literal, so [clientErrors[slackError]]
    finds the member inherited from [Object.prototype], which is truthy:
    the mapper answers 400, [client_error], the code itself, and a function
    as message, and the handler's response carries no [message] at all. *)
Theorem mapSlackError_finds_inherited_member :
  Rich.mapSlackError "constructor"
  = {| Rich.mapped_status := 400; Rich.mapped_category := "client_error";
       Rich.mapped_code := "constructor";
       Rich.mapped_message := Function "Object" |} /\
  Rich.handler Sample.environment
    (Sample.reply 200 (Body (Sample.refused "constructor")))
    (Sample.request "general" (Sample.message_body "hi"))
  = (relayed (slack_call "xoxb-1" "general" "hi"),
     Returned (Rich.errorResponse 400 (str "client_error") (str "constructor")
                 (Function "Object"))) /\
  json_fields (body (Rich.errorResponse 400 (str "client_error") (str "constructor")
                       (Function "Object")))
  = [("category", JStr "client_error"); ("code", JStr "constructor")].
Proof. repeat split. Qed.

(** ** Claims about the reply of Slack *)

(** C3: when Slack answers with a status of 500 or more and a body that
    parses, the richer handler returns status 503 with category
    [service_unavailable] and code [slack_unavailable], whatever the body
    holds; the plain handler does not read the status: it decides by [ok]
    alone, and a body with [ok: true] gives the success envelope. *)
Theorem server_error_status_only_in_richer
    environment fetch request channelName token text (r : SlackResponse) :
  valid_request request channelName (str text) ->
  configured environment token ->
  fetch (slack_call token channelName (markdownToSlackMrkdwn text)) = Resolved r ->
  (500 <= slack_status r)%Z ->
  (forall e, slack_body r <> NotJson e) ->
  Rich.handler environment fetch request
  = (relayed (slack_call token channelName (markdownToSlackMrkdwn text)),
     Returned {| status := 503;
                 headers := [("Content-Type", "application/json")];
                 body := [("category", str "service_unavailable");
                          ("code", str "slack_unavailable");
                          ("message", str "Slack API is unavailable")] |}) /\
  Plain.handler environment fetch request
  = (relayed (slack_call token channelName (markdownToSlackMrkdwn text)),
     match slack_body r with
     | Body res =>
         if ToBoolean (of_member (ok res)) then
           Returned {| status := 200;
                       headers := [("Content-Type", "application/json")];
                       body := [("status", str "ok"); ("channel", str channelName);
                                ("ts", of_member (ts res))] |}
         else
           Returned {| status := 500;
                       headers := [("Content-Type", "application/json")];
                       body := [("error", str "Slack API error");
                                ("slack_error", error_value (error res))] |}
     | _ => Threw (null_member "ok")
     end) /\
  (forall res, slack_body r = Body res -> ok res = Some (JBool true) ->
     Plain.handler environment fetch request
     = (relayed (slack_call token channelName (markdownToSlackMrkdwn text)),
        Returned {| status := 200;
                    headers := [("Content-Type", "application/json")];
                    body := [("status", str "ok"); ("channel", str channelName);
                             ("ts", of_member (ts res))] |})).
Proof.
  intros Hv Hc Hf Hs Hjson.
  pose proof (rich_delivered environment fetch request channelName token text Hv Hc) as HR.
  pose proof (plain_delivered environment fetch request channelName token text Hv Hc) as HP.
  cbv zeta in HR, HP. rewrite Hf in HR, HP.
  apply Z.leb_le in Hs.
  split; [|split].
  - rewrite HR. f_equal.
    destruct (slack_body r) as [e| |res] eqn:Hb; rewrite ?Hs; try reflexivity.
    now destruct (Hjson e).
  - rewrite HP. f_equal.
    destruct (slack_body r) as [e| |res] eqn:Hb; try reflexivity.
    + now destruct (Hjson e).
    + destruct (ToBoolean (of_member (ok res))); reflexivity.
  - intros res Hb Hok. rewrite HP, Hb, Hok. reflexivity.
Qed.

Lemma server_error_status_only_in_richer_witness :
  Rich.handler Sample.environment (Sample.reply 502 (Body Sample.posted))
    (Sample.request "general" (Sample.message_body "hi"))
  = (relayed (slack_call "xoxb-1" "general" "hi"),
     Returned {| status := 503;
                 headers := [("Content-Type", "application/json")];
                 body := [("category", str "service_unavailable");
                          ("code", str "slack_unavailable");
                          ("message", str "Slack API is unavailable")] |}) /\
  Plain.handler Sample.environment (Sample.reply 502 (Body Sample.posted))
    (Sample.request "general" (Sample.message_body "hi"))
  = (relayed (slack_call "xoxb-1" "general" "hi"),
     Returned {| status := 200;
                 headers := [("Content-Type", "application/json")];
                 body := [("status", str "ok"); ("channel", str "general");
                          ("ts", str "1234.5678")] |}).
Proof.
  assert (Hv : valid_request (Sample.request "general" (Sample.message_body "hi"))
                 "general" (str "hi"))
    by (apply sample_request_valid; discriminate).
  assert (Hs : (500 <= 502)%Z) by lia.
  assert (Hj : forall e, Body Sample.posted <> NotJson e) by discriminate.
  destruct (server_error_status_only_in_richer
              Sample.environment (Sample.reply 502 (Body Sample.posted))
              (Sample.request "general" (Sample.message_body "hi"))
              "general" "xoxb-1" "hi"
              {| slack_status := 502; slack_body := Body Sample.posted |}
              Hv sample_environment_configured eq_refl Hs Hj) as (HR & HP & _).
  split; [exact HR | exact HP].
Defined.

(** C4: when the fetch itself fails, both handlers return a response and
    throw nothing: the richer one status 503 with category
    [service_unavailable] and code [slack_unavailable], the plain one
    status 502 with the message of the error under [details]. *)
Theorem transport_failure_is_returned
    environment fetch request channelName token text (err : Error) :
  valid_request request channelName (str text) ->
  configured environment token ->
  fetch (slack_call token channelName (markdownToSlackMrkdwn text)) = Rejected err ->
  Rich.handler environment fetch request
  = (attempted (slack_call token channelName (markdownToSlackMrkdwn text)),
     Returned {| status := 503;
                 headers := [("Content-Type", "application/json")];
                 body := [("category", str "service_unavailable");
                          ("code", str "slack_unavailable");
                          ("message", str "Could not reach Slack")] |}) /\
  Plain.handler environment fetch request
  = (attempted (slack_call token channelName (markdownToSlackMrkdwn text)),
     Returned {| status := 502;
                 headers := [("Content-Type", "application/json")];
                 body := [("error", str "Failed to reach Slack API");
                          ("details", str (error_message err))] |}).
Proof.
  intros Hv Hc Hf.
  pose proof (rich_delivered environment fetch request channelName token text Hv Hc) as HR.
  pose proof (plain_delivered environment fetch request channelName token text Hv Hc) as HP.
  cbv zeta in HR, HP. rewrite Hf in HR, HP. split; assumption.
Qed.

Lemma transport_failure_is_returned_witness :
  Rich.handler Sample.environment (Sample.unreachable "getaddrinfo ENOTFOUND slack.com")
    (Sample.request "general" (Sample.message_body "hi"))
  = (attempted (slack_call "xoxb-1" "general" "hi"),
     Returned {| status := 503;
                 headers := [("Content-Type", "application/json")];
                 body := [("category", str "service_unavailable");
                          ("code", str "slack_unavailable");
                          ("message", str "Could not reach Slack")] |}) /\
  Plain.handler Sample.environment (Sample.unreachable "getaddrinfo ENOTFOUND slack.com")
    (Sample.request "general" (Sample.message_body "hi"))
  = (attempted (slack_call "xoxb-1" "general" "hi"),
     Returned {| status := 502;
                 headers := [("Content-Type", "application/json")];
                 body := [("error", str "Failed to reach Slack API");
                          ("details", str "getaddrinfo ENOTFOUND slack.com")] |}).
Proof.
  assert (Hv : valid_request (Sample.request "general" (Sample.message_body "hi"))
                 "general" (str "hi"))
    by (apply sample_request_valid; discriminate).
  exact (transport_failure_is_returned
           Sample.environment (Sample.unreachable "getaddrinfo ENOTFOUND slack.com")
           (Sample.request "general" (Sample.message_body "hi"))
           "general" "xoxb-1" "hi"
           {| error_name := "TypeError";
              error_message := "getaddrinfo ENOTFOUND slack.com" |}
           Hv sample_environment_configured eq_refl).
Defined.




(** ** Claims about the validator and the token *)

(** C6, as stated, fails for the plain handler: its response to a request
    without channel name is the object [{error: "Missing channel_name"}]
    with status 400, which has no [code] member. *)
Lemma plain_missing_channel_has_no_code :
  channel_name (Sample.no_channel None) = None /\
  Plain.handler Sample.environment (Sample.reply 200 (Body Sample.posted))
    (Sample.no_channel None)
  = ([], Returned {| status := 400;
                     headers := [("Content-Type", "application/json")];
                     body := [("error", str "Missing channel_name")] |}) /\
  own (json_fields [("error", str "Missing channel_name")]) "code" = None /\
  own (json_fields [("error", str "Missing channel_name")]) "code"
  <> Some (JStr "missing_channel").
Proof. repeat split. discriminate. Qed.

(** C6, amended: when the channel name is absent or empty, the richer
    handler returns 400 with category [client_error] and code
    [missing_channel], the plain handler returns 400 with the one member
    [error: "Missing channel_name"]; neither awaits anything: the body is
    not parsed and no call is made, whatever the body, the token and the
    network are. *)
Theorem missing_channel_rejected_first environment fetch request :
  channel_name request = None \/ channel_name request = Some "" ->
  Rich.handler environment fetch request
  = ([], Returned {| status := 400;
                     headers := [("Content-Type", "application/json")];
                     body := [("category", str "client_error");
                              ("code", str "missing_channel");
                              ("message", str "Missing channel_name")] |}) /\
  Plain.handler environment fetch request
  = ([], Returned {| status := 400;
                     headers := [("Content-Type", "application/json")];
                     body := [("error", str "Missing channel_name")] |}).
Proof.
  unfold Rich.handler, Plain.handler.
  intros [H | H]; rewrite H; split; reflexivity.
Qed.

Lemma missing_channel_rejected_first_witness :
  Rich.handler Sample.environment (Sample.reply 200 (Body Sample.posted))
    (Sample.no_channel (Some (Sample.message_body "hi")))
  = ([], Returned {| status := 400;
                     headers := [("Content-Type", "application/json")];
                     body := [("category", str "client_error");
                              ("code", str "missing_channel");
                              ("message", str "Missing channel_name")] |}) /\
  Plain.handler Sample.environment (Sample.reply 200 (Body Sample.posted))
    (Sample.request "" (Sample.message_body "hi"))
  = ([], Returned {| status := 400;
                     headers := [("Content-Type", "application/json")];
                     body := [("error", str "Missing channel_name")] |}).
Proof.
  split.
  - exact (proj1 (missing_channel_rejected_first
                    Sample.environment (Sample.reply 200 (Body Sample.posted))
                    (Sample.no_channel (Some (Sample.message_body "hi")))
                    (or_introl eq_refl))).
  - exact (proj2 (missing_channel_rejected_first
                    Sample.environment (Sample.reply 200 (Body Sample.posted))
                    (Sample.request "" (Sample.message_body "hi"))
                    (or_intror eq_refl))).
Defined.

(** The values of [message] the claim lists are falsy, and so is a body
    that is [null] or has no [message]. *)
Lemma falsy_messages :
  ToBoolean (body_message (JObj [])) = false /\
  ToBoolean (body_message JNull) = false /\
  ToBoolean (body_message (JObj [("message", JStr "")])) = false /\
  ToBoolean (body_message (JObj [("message", JNull)])) = false /\
  ToBoolean (body_message (JObj [("message", JNum (S754_zero false))])) = false /\
  ToBoolean (body_message (JObj [("message", JNum (S754_zero true))])) = false /\
  ToBoolean (body_message (JObj [("message", JBool false)])) = false.
Proof. repeat split. Qed.

(** C7, as stated, fails for the plain handler: its response to a body
    without [message] is [{error: "Missing 'message' field"}] with status
    400, which has no [code] member. *)
Lemma plain_missing_message_has_no_code :
  ToBoolean (body_message (JObj [])) = false /\
  Plain.handler Sample.environment (Sample.reply 200 (Body Sample.posted))
    (Sample.request "general" (JObj []))
  = ([AwaitRequestJson],
     Returned {| status := 400;
                 headers := [("Content-Type", "application/json")];
                 body := [("error", str "Missing 'message' field")] |}) /\
  own (json_fields [("error", str "Missing 'message' field")]) "code" = None /\
  own (json_fields [("error", str "Missing 'message' field")]) "code"
  <> Some (JStr "missing_message").
Proof. repeat split. discriminate. Qed.

(** C7, amended: when the body parses and its [message] is falsy (absent,
    the empty string, [null], zero, [false]), the richer handler returns
    400 with category [client_error] and code [missing_message], the plain
    handler returns 400 with the one member
    [error: "Missing 'message' field"]; the only await is the parsing of
    the body, so no call is made. *)
Theorem falsy_message_rejected environment fetch request channelName (b : json) :
  channel_name request = Some channelName ->
  channelName <> "" ->
  request_json request = Some b ->
  ToBoolean (body_message b) = false ->
  Rich.handler environment fetch request
  = ([AwaitRequestJson],
     Returned {| status := 400;
                 headers := [("Content-Type", "application/json")];
                 body := [("category", str "client_error");
                          ("code", str "missing_message");
                          ("message", str "Missing 'message' field")] |}) /\
  Plain.handler environment fetch request
  = ([AwaitRequestJson],
     Returned {| status := 400;
                 headers := [("Content-Type", "application/json")];
                 body := [("error", str "Missing 'message' field")] |}).
Proof.
  intros Hch Hne Hb Hm.
  unfold Rich.handler, Plain.handler. rewrite Hch. nonempty.
  parse_body Hb. rewrite Hm. split; reflexivity.
Qed.

Lemma falsy_message_rejected_witness :
  Rich.handler Sample.environment (Sample.reply 200 (Body Sample.posted))
    (Sample.request "general" (JObj [("message", JNum (S754_zero false))]))
  = ([AwaitRequestJson],
     Returned {| status := 400;
                 headers := [("Content-Type", "application/json")];
                 body := [("category", str "client_error");
                          ("code", str "missing_message");
                          ("message", str "Missing 'message' field")] |}) /\
  Plain.handler Sample.environment (Sample.reply 200 (Body Sample.posted))
    (Sample.request "general" (JObj [("message", JStr "")]))
  = ([AwaitRequestJson],
     Returned {| status := 400;
                 headers := [("Content-Type", "application/json")];
                 body := [("error", str "Missing 'message' field")] |}).
Proof.
  assert (Hne : "general" <> "") by discriminate.
  split.
  - exact (proj1 (falsy_message_rejected
                    Sample.environment (Sample.reply 200 (Body Sample.posted))
                    (Sample.request "general" (JObj [("message", JNum (S754_zero false))]))
                    "general" (JObj [("message", JNum (S754_zero false))])
                    eq_refl Hne eq_refl eq_refl)).
  - exact (proj2 (falsy_message_rejected
                    Sample.environment (Sample.reply 200 (Body Sample.posted))
                    (Sample.request "general" (JObj [("message", JStr "")]))
                    "general" (JObj [("message", JStr "")])
                    eq_refl Hne eq_refl eq_refl)).
Defined.

(** C8, as stated, fails for the plain handler: without a token its
    response is [{error: "SLACK_BOT_TOKEN not configured"}] with status
    500, which has no [code] member. *)
Lemma plain_missing_token_has_no_code :
  SLACK_BOT_TOKEN Sample.no_token = None /\
  Plain.handler Sample.no_token (Sample.reply 200 (Body Sample.posted))
    (Sample.request "general" (Sample.message_body "hi"))
  = ([AwaitRequestJson],
     Returned {| status := 500;
                 headers := [("Content-Type", "application/json")];
                 body := [("error", str "SLACK_BOT_TOKEN not configured")] |}) /\
  own (json_fields [("error", str "SLACK_BOT_TOKEN not configured")]) "code" = None /\
  own (json_fields [("error", str "SLACK_BOT_TOKEN not configured")]) "code"
  <> Some (JStr "config_error").
Proof. repeat split. discriminate. Qed.

(** C8, amended: for a valid request (channel name, a body that parses, a
    truthy [message]) with the token unset or empty, the richer handler
    returns 500 with category [internal_error] and code [config_error], the
    plain handler returns 500 with the one member
    [error: "SLACK_BOT_TOKEN not configured"]; the only await is the
    parsing of the body: the fetch is never issued. *)
Theorem missing_token_stops_before_fetch
    environment fetch request channelName (message : value) :
  valid_request request channelName message ->
  SLACK_BOT_TOKEN environment = None \/ SLACK_BOT_TOKEN environment = Some "" ->
  Rich.handler environment fetch request
  = ([AwaitRequestJson],
     Returned {| status := 500;
                 headers := [("Content-Type", "application/json")];
                 body := [("category", str "internal_error");
                          ("code", str "config_error");
                          ("message", str "SLACK_BOT_TOKEN not configured")] |}) /\
  Plain.handler environment fetch request
  = ([AwaitRequestJson],
     Returned {| status := 500;
                 headers := [("Content-Type", "application/json")];
                 body := [("error", str "SLACK_BOT_TOKEN not configured")] |}).
Proof.
  intros (Hch & Hne & (b & Hb & Hm) & Ht) Htok.
  unfold Rich.handler, Plain.handler. rewrite Hch. nonempty.
  parse_body Hb. rewrite Hm, Ht.
  destruct Htok as [Htok | Htok]; rewrite Htok; split; reflexivity.
Qed.

Lemma missing_token_stops_before_fetch_witness :
  Rich.handler Sample.no_token (Sample.reply 200 (Body Sample.posted))
    (Sample.request "general" (Sample.message_body "hi"))
  = ([AwaitRequestJson],
     Returned {| status := 500;
                 headers := [("Content-Type", "application/json")];
                 body := [("category", str "internal_error");
                          ("code", str "config_error");
                          ("message", str "SLACK_BOT_TOKEN not configured")] |}) /\
  Plain.handler {| SLACK_BOT_TOKEN := Some "" |} (Sample.reply 200 (Body Sample.posted))
    (Sample.request "general" (Sample.message_body "hi"))
  = ([AwaitRequestJson],
     Returned {| status := 500;
                 headers := [("Content-Type", "application/json")];
                 body := [("error", str "SLACK_BOT_TOKEN not configured")] |}).
Proof.
  assert (Hv : valid_request (Sample.request "general" (Sample.message_body "hi"))
                 "general" (str "hi"))
    by (apply sample_request_valid; discriminate).
  split.
  - exact (proj1 (missing_token_stops_before_fetch
                    Sample.no_token (Sample.reply 200 (Body Sample.posted))
                    (Sample.request "general" (Sample.message_body "hi"))
                    "general" (str "hi") Hv (or_introl eq_refl))).
  - exact (proj2 (missing_token_stops_before_fetch
                    {| SLACK_BOT_TOKEN := Some "" |}
                    (Sample.reply 200 (Body Sample.posted))
                    (Sample.request "general" (Sample.message_body "hi"))
                    "general" (str "hi") Hv (or_intror eq_refl))).
Defined.

(** * Further properties of the transformer *)

Lemma link_one_shorter label url :
  S (String.length (slack_link label url)) = String.length (markdown_link label url).
Proof.
  unfold slack_link, markdown_link.
  cbn [append String.length]. rewrite !length_append. cbn [String.length].
  rewrite !length_append. cbn [String.length]. lia.
Qed.

Lemma md_length_bound n : forall text,
  String.length text <= n ->
  String.length (markdownToSlackMrkdwn text) <= String.length text.
Proof.
  induction n as [|n IH]; intros text Hn.
  - destruct text; [rewrite md_empty; reflexivity | cbn in Hn; lia].
  - destruct text as [|x s]; [rewrite md_empty; reflexivity|].
    destruct (scan_link (String x s)) as [[[label url] rest]|] eqn:E.
    + rewrite (md_link_found _ _ _ _ E).
      apply scan_link_sound in E as (Hs & _ & _).
      rewrite Hs in *. rewrite !length_append in *.
      pose proof (link_one_shorter label url) as H1.
      assert (String.length (markdownToSlackMrkdwn rest) <= String.length rest)
        by (apply IH; lia).
      lia.
    + rewrite md_no_link_here by assumption. cbn [String.length] in *.
      apply le_n_S. apply IH. lia.
Qed.

Lemma md_shortens_with_link text :
  has_link text = true ->
  String.length (markdownToSlackMrkdwn text) < String.length text.
Proof.
  induction text as [|x s IH]; intros H.
  - discriminate.
  - destruct (scan_link (String x s)) as [[[label url] rest]|] eqn:E.
    + rewrite (md_link_found _ _ _ _ E).
      apply scan_link_sound in E as (Hs & _ & _).
      rewrite Hs. rewrite !length_append.
      pose proof (link_one_shorter label url) as H1.
      pose proof (md_length_bound _ rest (le_n _)) as H2. lia.
    + rewrite md_no_link_here by assumption.
      cbn [has_link] in H. rewrite E in H.
      cbn [String.length]. apply IH in H. lia.
Qed.

(** X1: at the head of a text the pattern of the source matches exactly
    when the text starts with [[label](url)], the label having no closing
    bracket and the url being [http://] or [https://] followed by one or
    more units other than a closing parenthesis; group 1 is then the label,
    group 2 the url, and the match ends right behind the closing
    parenthesis.  Nothing else matches (other schemes, upper case, an
    empty url tail, a missing parenthesis). *)
Theorem pattern_matches_exactly_links (s rest : string) (cs : captures) :
  match_here link_pattern s = Some (cs, rest) <->
  exists label url,
    label_ok label /\ url_ok url /\
    s = markdown_link label url ++ rest /\ cs = [(2, url); (1, label)].
Proof.
  rewrite match_here_link. split.
  - destruct (scan_link s) as [[[label url] rest']|] eqn:E; [|discriminate].
    intros H; inversion H; subst.
    apply scan_link_sound in E as (Hs & Hl & Hu).
    exists label, url. auto.
  - intros (label & url & Hl & Hu & -> & ->).
    now rewrite scan_link_complete.
Qed.

(** X2: a unit at which no link starts is copied and the scan goes on with
    the next unit; this holds for an opening bracket too when what follows
    it is not a link. *)
Theorem unit_outside_link_is_copied (x : ascii) (s : string) :
  (forall label url rest,
     label_ok label -> url_ok url ->
     String x s <> markdown_link label url ++ rest) ->
  markdownToSlackMrkdwn (String x s) = String x (markdownToSlackMrkdwn s).
Proof.
  intros H. apply md_no_link_here.
  destruct (scan_link (String x s)) as [[[label url] rest]|] eqn:E; [|reflexivity].
  apply scan_link_sound in E as (Hs & Hl & Hu).
  now destruct (H label url rest Hl Hu).
Qed.

Lemma unit_outside_link_is_copied_witness :
  markdownToSlackMrkdwn "[x] [a](http://b)" = String "[" (markdownToSlackMrkdwn "x] [a](http://b)") /\
  markdownToSlackMrkdwn "[x] [a](http://b)" = "[x] <http://b|a>".
Proof.
  split; [|reflexivity].
  apply (unit_outside_link_is_copied "[" "x] [a](http://b)").
  intros label url rest Hl Hu Heq.
  pose proof (scan_link_complete label url rest Hl Hu) as Hscan.
  rewrite <- Heq in Hscan. discriminate.
Defined.

(** X3: the transformer never makes a text longer: every rewritten link is
    one unit shorter than its source, everything else is copied. *)
Theorem transformer_never_lengthens (text : string) :
  String.length (markdownToSlackMrkdwn text) <= String.length text.
Proof. apply (md_length_bound (String.length text)). apply le_n. Qed.

(** X4: the transformer leaves a text unchanged exactly when the text has
    no substring that is a link; a text with a link always comes out
    shorter. *)
Theorem transformer_changes_exactly_linked_text (text : string) :
  (markdownToSlackMrkdwn text = text <-> ~ contains_link text) /\
  (contains_link text ->
   String.length (markdownToSlackMrkdwn text) < String.length text).
Proof.
  assert (Hshort : contains_link text ->
                   String.length (markdownToSlackMrkdwn text) < String.length text).
  { intros Hc. apply md_shortens_with_link.
    destruct (has_link text) eqn:E; [reflexivity|].
    apply has_link_spec in E. contradiction. }
  split; [split|exact Hshort].
  - intros Heq Hc. apply Hshort in Hc. rewrite Heq in Hc. lia.
  - intros Hn. apply md_without_link. now apply has_link_spec.
Qed.

(** X5: the transformer is not idempotent on every text: the output of a
    first pass can hold a new link, made of a bracket left in a label and
    of a link that followed, and a second pass rewrites it. *)
Theorem transformer_not_idempotent :
  exists text,
    markdownToSlackMrkdwn text = "<http://x|[a>](http://y)" /\
    markdownToSlackMrkdwn (markdownToSlackMrkdwn text) = "<http://x|<http://y|a>>" /\
    markdownToSlackMrkdwn (markdownToSlackMrkdwn text) <> markdownToSlackMrkdwn text.
Proof.
  exists "[[a](http://x)](http://y)".
  split; [reflexivity|]. split; [reflexivity|]. discriminate.
Qed.

(** * Further properties of the error mapper *)

Lemma own_none {A : Type} (members : list (string * A)) (k : string) :
  ~ In k (map fst members) -> own members k = None.
Proof.
  induction members as [|[k' v] rest IH]; intros H; [reflexivity|].
  cbn [own]. rewrite IH by (intros Hin; apply H; now right).
  destruct (String.eqb_spec k' k) as [->|Hne]; [|reflexivity].
  exfalso. apply H. now left.
Qed.

Lemma mapper_pairs slackError :
  In (Rich.mapped_status (Rich.mapSlackError slackError),
      Rich.mapped_category (Rich.mapSlackError slackError))
     [ (400, "client_error"); (403, "forbidden"); (429, "rate_limited");
       (500, "internal_error") ]%Z.
Proof.
  unfold Rich.mapSlackError.
  destruct (ToBoolean (lookup Rich.clientErrors slackError)); [cbn; tauto|].
  destruct (ToBoolean (lookup Rich.forbiddenErrors slackError)); [cbn; tauto|].
  destruct (slackError =? "rate_limited"); cbn; tauto.
Qed.

Lemma mapper_status_not_200 slackError :
  Rich.mapped_status (Rich.mapSlackError slackError) <> 200%Z.
Proof.
  unfold Rich.mapSlackError.
  destruct (ToBoolean (lookup Rich.clientErrors slackError)); [discriminate|].
  destruct (ToBoolean (lookup Rich.forbiddenErrors slackError)); [discriminate|].
  destruct (slackError =? "rate_limited"); discriminate.
Qed.

Lemma untyped_pairs slackError key :
  In (Rich.untyped_status (Rich.mapSlackError_untyped slackError key),
      Rich.untyped_category (Rich.mapSlackError_untyped slackError key))
     [ (400, "client_error"); (403, "forbidden"); (429, "rate_limited");
       (500, "internal_error") ]%Z.
Proof.
  unfold Rich.mapSlackError_untyped.
  destruct (ToBoolean (lookup Rich.clientErrors key)); [cbn; tauto|].
  destruct (ToBoolean (lookup Rich.forbiddenErrors key)); [cbn; tauto|].
  destruct (match slackError with JStr s => s =? "rate_limited" | _ => false end);
    cbn; tauto.
Qed.

Lemma untyped_status_not_200 slackError key :
  Rich.untyped_status (Rich.mapSlackError_untyped slackError key) <> 200%Z.
Proof.
  pose proof (untyped_pairs slackError key) as H. cbn [In] in H.
  intros E. rewrite E in H.
  repeat (destruct H as [H | H]; [discriminate H|]). exact H.
Qed.

(** On a string the untyped reading of the mapper is the typed one. *)
Lemma mapSlackError_untyped_string (code : string) :
  let typed := Rich.mapSlackError code in
  Rich.mapSlackError_untyped (JStr code) code
  = {| Rich.untyped_status := Rich.mapped_status typed;
       Rich.untyped_category := Rich.mapped_category typed;
       Rich.untyped_code := str (Rich.mapped_code typed);
       Rich.untyped_message := Rich.mapped_message typed |}.
Proof.
  unfold Rich.mapSlackError_untyped, Rich.mapSlackError. cbv zeta.
  destruct (ToBoolean (lookup Rich.clientErrors code)); [reflexivity|].
  destruct (ToBoolean (lookup Rich.forbiddenErrors code)); [reflexivity|].
  destruct (code =? "rate_limited"); reflexivity.
Qed.

(** X6: the mapper answers with its last line (500, [internal_error],
    [slack_error], "Slack API error") exactly for the codes that are
    neither one of the eight keys it tests nor the name of a member of
    [Object.prototype]; every other code gets a status other than 500. *)
Theorem mapper_fallback_exactly_unlisted (slackError : string) :
  Rich.mapSlackError slackError
  = {| Rich.mapped_status := 500; Rich.mapped_category := "internal_error";
       Rich.mapped_code := "slack_error";
       Rich.mapped_message := str "Slack API error" |}
  <->
  ~ In slackError table_codes /\ ~ In slackError (map fst Object_prototype).
Proof.
  split.
  - intros H. split; intros Hin; cbn in Hin;
      repeat (destruct Hin as [<- | Hin]; [discriminate H|]); exact Hin.
  - intros [Hrow Hproto]. apply mapSlackError_unlisted; [exact Hrow|].
    now apply own_none.
Qed.

(** * Further properties of the handlers *)

Lemma stage_total environment request : stage environment request.
Proof.
  destruct (channel_name request) as [ch|] eqn:Hch;
    [|apply Stage_no_channel; now left].
  destruct (String.eqb_spec ch "") as [->|Hne];
    [apply Stage_no_channel; now right|].
  destruct (request_json request) as [b|] eqn:Hb;
    [|now apply (Stage_invalid_body _ _ ch)].
  destruct (ToBoolean (body_message b)) eqn:Hm;
    [|now apply (Stage_no_message _ _ ch b)].
  assert (Hv : valid_request request ch (body_message b)).
  { repeat split; try assumption. now exists b. }
  destruct (SLACK_BOT_TOKEN environment) as [token|] eqn:Htok;
    [|apply (Stage_no_token _ _ ch (body_message b)); auto].
  destruct (String.eqb_spec token "") as [->|Htne];
    [apply (Stage_no_token _ _ ch (body_message b)); auto|].
  assert (Hc : configured environment token) by now split.
  destruct (body_message b) as [|[| | |text| |]| |] eqn:Hmsg;
    try (apply (Stage_not_text _ _ ch token _ Hv Hc); intros text; discriminate).
  now apply (Stage_deliverable _ _ ch token text).
Qed.

Lemma at_no_channel environment fetch request :
  channel_name request = None \/ channel_name request = Some "" ->
  Rich.handler environment fetch request
  = ([], Returned (Rich.errorResponse 400 (str "client_error") (str "missing_channel")
                     (str "Missing channel_name"))) /\
  Plain.handler environment fetch request
  = ([], Returned (Plain.plain_response 400 [("error", str "Missing channel_name")])).
Proof.
  unfold Rich.handler, Plain.handler.
  intros [H | H]; rewrite H; split; reflexivity.
Qed.

Lemma at_invalid_body environment fetch request channelName :
  channel_name request = Some channelName -> channelName <> "" ->
  request_json request = None ->
  Rich.handler environment fetch request
  = ([AwaitRequestJson],
     Returned (Rich.errorResponse 400 (str "client_error") (str "invalid_body")
                 (str "Invalid JSON body"))) /\
  Plain.handler environment fetch request
  = ([AwaitRequestJson],
     Returned (Plain.plain_response 400 [("error", str "Invalid JSON body")])).
Proof.
  intros Hch Hne Hb.
  unfold Rich.handler, Plain.handler. rewrite Hch. nonempty.
  parse_body Hb. split; reflexivity.
Qed.

Lemma at_no_message environment fetch request channelName b :
  channel_name request = Some channelName -> channelName <> "" ->
  request_json request = Some b ->
  ToBoolean (body_message b) = false ->
  Rich.handler environment fetch request
  = ([AwaitRequestJson],
     Returned (Rich.errorResponse 400 (str "client_error") (str "missing_message")
                 (str "Missing 'message' field"))) /\
  Plain.handler environment fetch request
  = ([AwaitRequestJson],
     Returned (Plain.plain_response 400 [("error", str "Missing 'message' field")])).
Proof.
  intros Hch Hne Hb Hm.
  unfold Rich.handler, Plain.handler. rewrite Hch. nonempty.
  parse_body Hb. rewrite Hm. split; reflexivity.
Qed.

Lemma at_no_token environment fetch request channelName message :
  valid_request request channelName message ->
  SLACK_BOT_TOKEN environment = None \/ SLACK_BOT_TOKEN environment = Some "" ->
  Rich.handler environment fetch request
  = ([AwaitRequestJson],
     Returned (Rich.errorResponse 500 (str "internal_error") (str "config_error")
                 (str "SLACK_BOT_TOKEN not configured"))) /\
  Plain.handler environment fetch request
  = ([AwaitRequestJson],
     Returned (Plain.plain_response 500
                 [("error", str "SLACK_BOT_TOKEN not configured")])).
Proof.
  intros (Hch & Hne & (b & Hb & Hm) & Ht) Htok.
  unfold Rich.handler, Plain.handler. rewrite Hch. nonempty.
  parse_body Hb. rewrite Hm, Ht.
  destruct Htok as [Htok | Htok]; rewrite Htok; split; reflexivity.
Qed.

Lemma at_not_text environment fetch request channelName token message :
  valid_request request channelName message ->
  configured environment token ->
  (forall text, message <> str text) ->
  Rich.handler environment fetch request
  = ([AwaitRequestJson],
     Returned (Rich.errorResponse 503 (str "service_unavailable")
                 (str "slack_unavailable") (str "Could not reach Slack"))) /\
  Plain.handler environment fetch request
  = ([AwaitRequestJson],
     Returned (Plain.plain_response 502
                 [("error", str "Failed to reach Slack API");
                  ("details", str "text.replace is not a function")])).
Proof.
  intros (Hch & Hne & (b & Hb & Hm) & Ht) (Htok & Htne) Hnt.
  unfold Rich.handler, Plain.handler. rewrite Hch, Htok. nonempty.
  parse_body Hb. rewrite Hm, Ht.
  destruct message as [|[| | |text| |]| |];
    try (split; reflexivity).
  now destruct (Hnt text).
Qed.

(** Splits a statement about both handlers by the stage the request
    reaches, and rewrites the handlers with what they do there. *)
Ltac stages environment fetch request :=
  let HR := fresh "HR" in
  let HP := fresh "HP" in
  destruct (stage_total environment request)
    as [Hch | ch Hch Hne Hb | ch b Hch Hne Hb Hm | ch message Hv Htok
        | ch token message Hv Hc Hnt | ch token text Hv Hc];
  [ destruct (at_no_channel environment fetch request Hch) as [HR HP]
  | destruct (at_invalid_body environment fetch request ch Hch Hne Hb) as [HR HP]
  | destruct (at_no_message environment fetch request ch b Hch Hne Hb Hm) as [HR HP]
  | destruct (at_no_token environment fetch request ch message Hv Htok) as [HR HP]
  | destruct (at_not_text environment fetch request ch token message Hv Hc Hnt) as [HR HP]
  | pose proof (rich_delivered environment fetch request ch token text Hv Hc) as HR;
    pose proof (plain_delivered environment fetch request ch token text Hv Hc) as HP;
    cbv zeta in HR, HP ];
  rewrite ?HR, ?HP.

(** X7: a request body that does not parse is answered with 400 right after
    the attempt to parse it: [client_error] and [invalid_body] in the richer
    variant, [{error: "Invalid JSON body"}] in the plain one; the token is
    not read and no call is made. *)
Theorem unparsable_request_body_rejected environment fetch request channelName :
  channel_name request = Some channelName ->
  channelName <> "" ->
  request_json request = None ->
  Rich.handler environment fetch request
  = ([AwaitRequestJson],
     Returned {| status := 400;
                 headers := [("Content-Type", "application/json")];
                 body := [("category", str "client_error");
                          ("code", str "invalid_body");
                          ("message", str "Invalid JSON body")] |}) /\
  Plain.handler environment fetch request
  = ([AwaitRequestJson],
     Returned {| status := 400;
                 headers := [("Content-Type", "application/json")];
                 body := [("error", str "Invalid JSON body")] |}).
Proof. intros Hch Hne Hb. exact (at_invalid_body _ fetch _ _ Hch Hne Hb). Qed.

Lemma unparsable_request_body_rejected_witness :
  Rich.handler Sample.no_token (Sample.reply 200 (Body Sample.posted))
    {| params := Some [("channel_name", "general")]; request_json := None |}
  = ([AwaitRequestJson],
     Returned {| status := 400;
                 headers := [("Content-Type", "application/json")];
                 body := [("category", str "client_error");
                          ("code", str "invalid_body");
                          ("message", str "Invalid JSON body")] |}).
Proof.
  assert (Hne : "general" <> "") by discriminate.
  exact (proj1 (unparsable_request_body_rejected
                  Sample.no_token (Sample.reply 200 (Body Sample.posted))
                  {| params := Some [("channel_name", "general")];
                     request_json := None |}
                  "general" eq_refl Hne eq_refl)).
Defined.

(** X8: a truthy [message] that is not a string (a number, [true], an
    array, an object) never reaches Slack: the call of [replace] on it
    throws inside the [try] that surrounds the fetch, so the richer variant
    answers 503 "Could not reach Slack" and the plain one 502 "Failed to
    reach Slack API", with the body parse as the only await. *)
Theorem non_string_message_never_sent
    environment fetch request channelName token (message : value) :
  valid_request request channelName message ->
  configured environment token ->
  (forall text, message <> str text) ->
  Rich.handler environment fetch request
  = ([AwaitRequestJson],
     Returned {| status := 503;
                 headers := [("Content-Type", "application/json")];
                 body := [("category", str "service_unavailable");
                          ("code", str "slack_unavailable");
                          ("message", str "Could not reach Slack")] |}) /\
  fst (Plain.handler environment fetch request) = [AwaitRequestJson] /\
  exists r,
    snd (Plain.handler environment fetch request) = Returned r /\
    status r = 502%Z /\
    own (body r) "error" = Some (str "Failed to reach Slack API").
Proof.
  intros Hv Hc Hnt.
  destruct (at_not_text environment fetch request channelName token message Hv Hc Hnt)
    as [HR HP].
  rewrite HR, HP. split; [reflexivity|]. split; [reflexivity|].
  eexists. split; [reflexivity|]. split; reflexivity.
Qed.

Lemma non_string_message_never_sent_witness :
  Rich.handler Sample.environment (Sample.reply 200 (Body Sample.posted))
    (Sample.request "general" (JObj [("message", JArr [JStr "hi"])]))
  = ([AwaitRequestJson],
     Returned {| status := 503;
                 headers := [("Content-Type", "application/json")];
                 body := [("category", str "service_unavailable");
                          ("code", str "slack_unavailable");
                          ("message", str "Could not reach Slack")] |}).
Proof.
  assert (Hv : valid_request
                 (Sample.request "general" (JObj [("message", JArr [JStr "hi"])]))
                 "general" (Json (JArr [JStr "hi"]))).
  { repeat split; [discriminate|].
    exists (JObj [("message", JArr [JStr "hi"])]). split; reflexivity. }
  assert (Hnt : forall text, Json (JArr [JStr "hi"]) <> str text) by discriminate.
  exact (proj1 (non_string_message_never_sent
                  Sample.environment (Sample.reply 200 (Body Sample.posted))
                  (Sample.request "general" (JObj [("message", JArr [JStr "hi"])]))
                  "general" "xoxb-1" (Json (JArr [JStr "hi"]))
                  Hv sample_environment_configured Hnt)).
Defined.

(** X9: the body of Slack's reply is read outside every [try].  When it is
    not JSON both handlers throw the parse error, after the call was made,
    and return no response; when it is the document [null] the plain
    handler throws a TypeError on reading [ok], and so does the richer one
    unless the status is 500 or more. *)
Theorem unreadable_reply_is_thrown
    environment fetch request channelName token text (resp : SlackResponse) :
  valid_request request channelName (str text) ->
  configured environment token ->
  fetch (slack_call token channelName (markdownToSlackMrkdwn text)) = Resolved resp ->
  (forall e, slack_body resp = NotJson e ->
     Rich.handler environment fetch request
     = (relayed (slack_call token channelName (markdownToSlackMrkdwn text)), Threw e) /\
     Plain.handler environment fetch request
     = (relayed (slack_call token channelName (markdownToSlackMrkdwn text)), Threw e)) /\
  (slack_body resp = NullBody ->
     (exists e, error_name e = "TypeError" /\
        Plain.handler environment fetch request
        = (relayed (slack_call token channelName (markdownToSlackMrkdwn text)), Threw e)) /\
     ((slack_status resp < 500)%Z ->
      exists e, error_name e = "TypeError" /\
        Rich.handler environment fetch request
        = (relayed (slack_call token channelName (markdownToSlackMrkdwn text)), Threw e))).
Proof.
  intros Hv Hc Hf.
  pose proof (rich_delivered environment fetch request channelName token text Hv Hc) as HR.
  pose proof (plain_delivered environment fetch request channelName token text Hv Hc) as HP.
  cbv zeta in HR, HP. rewrite Hf in HR, HP. split.
  - intros e He. rewrite He in HR, HP. split; assumption.
  - intros Hn. rewrite Hn in HR, HP. split.
    + exists (null_member "ok"). split; [reflexivity | exact HP].
    + intros Hs. apply Z.leb_gt in Hs. rewrite Hs in HR.
      exists (null_member "ok"). split; [reflexivity | exact HR].
Qed.

Lemma unreadable_reply_is_thrown_witness :
  Rich.handler Sample.environment
    (Sample.reply 200 (NotJson {| error_name := "SyntaxError";
                                  error_message := "Unexpected token <" |}))
    (Sample.request "general" (Sample.message_body "hi"))
  = (relayed (slack_call "xoxb-1" "general" "hi"),
     Threw {| error_name := "SyntaxError"; error_message := "Unexpected token <" |}).
Proof.
  assert (Hv : valid_request (Sample.request "general" (Sample.message_body "hi"))
                 "general" (str "hi"))
    by (apply sample_request_valid; discriminate).
  exact (proj1 (proj1 (unreadable_reply_is_thrown
                         Sample.environment
                         (Sample.reply 200
                            (NotJson {| error_name := "SyntaxError";
                                        error_message := "Unexpected token <" |}))
                         (Sample.request "general" (Sample.message_body "hi"))
                         "general" "xoxb-1" "hi"
                         {| slack_status := 200;
                            slack_body :=
                              NotJson {| error_name := "SyntaxError";
                                         error_message := "Unexpected token <" |} |}
                         Hv sample_environment_configured eq_refl)
                      _ eq_refl)).
Defined.





(** Two replies whose [error] is no string.  An object with a [toString]
    member that is no function cannot be made a property key: the richer
    handler throws, the plain one passes the object on.  The array
    [["rate_limited"]] converts to the key [rate_limited], which is in
    neither table, and is not strictly equal to the string: the richer
    handler answers with its last line. *)
Example replies_with_other_error_values :
  Rich.handler Sample.environment
    (Sample.reply 200
       (Body {| ok := Some (JBool false);
                error := ErrorOther (JObj [("toString", JNum (S754_zero false))])
                           (inl {| error_name := "TypeError";
                                   error_message :=
                                     "Cannot convert object to primitive value" |});
                ts := None |}))
    (Sample.request "general" (Sample.message_body "hi"))
  = (relayed (slack_call "xoxb-1" "general" "hi"),
     Threw {| error_name := "TypeError";
              error_message := "Cannot convert object to primitive value" |}) /\
  Plain.handler Sample.environment
    (Sample.reply 200
       (Body {| ok := Some (JBool false);
                error := ErrorOther (JObj [("toString", JNum (S754_zero false))])
                           (inl {| error_name := "TypeError";
                                   error_message :=
                                     "Cannot convert object to primitive value" |});
                ts := None |}))
    (Sample.request "general" (Sample.message_body "hi"))
  = (relayed (slack_call "xoxb-1" "general" "hi"),
     Returned {| status := 500;
                 headers := [("Content-Type", "application/json")];
                 body := [("error", str "Slack API error");
                          ("slack_error",
                           Json (JObj [("toString", JNum (S754_zero false))]))] |}) /\
  Rich.handler Sample.environment
    (Sample.reply 200
       (Body {| ok := Some (JBool false);
                error := ErrorOther (JArr [JStr "rate_limited"]) (inr "rate_limited");
                ts := None |}))
    (Sample.request "general" (Sample.message_body "hi"))
  = (relayed (slack_call "xoxb-1" "general" "hi"),
     Returned {| status := 500;
                 headers := [("Content-Type", "application/json")];
                 body := [("category", str "internal_error");
                          ("code", str "slack_error");
                          ("message", str "Slack API error")] |}).
Proof. repeat split. Qed.

(** ** What holds for every request, environment and network *)

(** X12: whatever the request, the token and the network, a response of the
    richer handler is either the success envelope with status 200, or an
    error whose status and [category] are one of the pairs (400,
    [client_error]), (403, [forbidden]), (429, [rate_limited]), (500,
    [internal_error]), (503, [service_unavailable]). *)
Theorem rich_responses_follow_taxonomy environment fetch request (r : Response) :
  snd (Rich.handler environment fetch request) = Returned r ->
  (status r = 200%Z /\ own (body r) "status" = Some (str "ok")) \/
  (exists category,
     In (status r, category) taxonomy /\
     own (body r) "category" = Some (str category)).
Proof.
  stages environment fetch request.
  1-5: cbn [snd]; intros H; inversion H; subst r; right; eexists; split;
       [|reflexivity]; cbn; tauto.
  destruct (fetch _) as [e|resp].
  - cbn [snd]; intros H; inversion H; subst r; right; eexists; split;
      [|reflexivity]; cbn; tauto.
  - cbn [snd]. destruct (slack_body resp) as [e| |res].
    + discriminate.
    + destruct (500 <=? slack_status resp)%Z; [|discriminate].
      intros H; inversion H; subst r; right; eexists; split; [|reflexivity]; cbn; tauto.
    + destruct (500 <=? slack_status resp)%Z.
      * intros H; inversion H; subst r; right; eexists; split; [|reflexivity]; cbn; tauto.
      * destruct (ToBoolean (of_member (ok res))); cbn [negb].
        -- intros H; inversion H; subst r. left. split; reflexivity.
        -- destruct (error res) as [| |code|j [e|key]]; cbv zeta;
             try discriminate;
             intros H; inversion H; subst r; right;
             (eexists; split; [|reflexivity]);
             cbn [status Rich.errorResponse Rich.code_or_unknown];
             match goal with
             | |- context [Rich.mapSlackError_untyped ?v ?k] =>
                 pose proof (untyped_pairs v k) as Hp
             | |- context [Rich.mapSlackError ?c] =>
                 pose proof (mapper_pairs c) as Hp
             | _ => idtac
             end;
             unfold taxonomy; cbn [In] in *; tauto.
Qed.

Lemma rich_responses_follow_taxonomy_witness :
  exists category,
    In (403%Z, category) taxonomy /\
    own [("category", str "forbidden"); ("code", str "token_revoked");
         ("message", str "Slack token revoked")] "category" = Some (str category).
Proof.
  destruct (rich_responses_follow_taxonomy
              Sample.environment
              (Sample.reply 200 (Body (Sample.refused "token_revoked")))
              (Sample.request "general" (Sample.message_body "hi"))
              (Rich.errorResponse 403 (str "forbidden") (str "token_revoked")
                 (str "Slack token revoked"))
              eq_refl) as [[H _] | H].
  - discriminate H.
  - exact H.
Defined.

(** X13: whatever the request, the token and the network, the status of a
    response of the plain handler is 200, 400, 500 or 502. *)
Theorem plain_statuses environment fetch request (r : Response) :
  snd (Plain.handler environment fetch request) = Returned r ->
  In (status r) [200; 400; 500; 502]%Z.
Proof.
  stages environment fetch request.
  1-5: cbn [snd]; intros H; inversion H; subst r; cbn; tauto.
  destruct (fetch _) as [e|resp]; cbn [snd].
  - intros H; inversion H; subst r; cbn; tauto.
  - destruct (slack_body resp) as [e| |res]; try discriminate.
    destruct (ToBoolean (of_member (ok res))); cbn [negb];
      intros H; inversion H; subst r; cbn; tauto.
Qed.

Lemma plain_statuses_witness : In 502%Z [200; 400; 500; 502]%Z.
Proof.
  exact (plain_statuses
           Sample.environment (Sample.unreachable "timeout")
           (Sample.request "general" (Sample.message_body "hi"))
           (Plain.plain_response 502
              [("error", str "Failed to reach Slack API"); ("details", str "timeout")])
           eq_refl).
Defined.

(** X14: every response of either handler, success or error, carries the
    header [Content-Type: application/json] and no other. *)
Theorem responses_are_json_typed environment fetch request (r : Response) :
  snd (Rich.handler environment fetch request) = Returned r \/
  snd (Plain.handler environment fetch request) = Returned r ->
  headers r = [("Content-Type", "application/json")].
Proof.
  stages environment fetch request.
  1-5: cbn [snd]; intros [H | H]; inversion H; subst r; reflexivity.
  destruct (fetch _) as [e|resp]; cbn [snd].
  - intros [H | H]; inversion H; subst r; reflexivity.
  - destruct (slack_body resp) as [e| |res];
      destruct (500 <=? slack_status resp)%Z;
      try (intros [H | H]; inversion H; subst r; reflexivity);
      destruct (ToBoolean (of_member (ok res))); cbn [negb];
      try destruct (error res) as [| |code|j [e|key]]; cbv zeta;
      intros [H | H]; inversion H; subst r; reflexivity.
Qed.

Lemma responses_are_json_typed_witness :
  headers (success_envelope "general" (Some (JStr "1234.5678")))
  = [("Content-Type", "application/json")].
Proof.
  exact (responses_are_json_typed
           Sample.environment (Sample.reply 200 (Body Sample.posted))
           (Sample.request "general" (Sample.message_body "hi"))
           (success_envelope "general" (Some (JStr "1234.5678")))
           (or_introl eq_refl)).
Defined.

(** X15: a handler throws only because of Slack's reply: its body is not
    JSON (the parse error is thrown), or it is [null], or, in the richer
    handler only, its [ok] is falsy, its status is below 500 and its
    [error] member is a value other than a string or [null] whose
    conversion to a property key throws; in that last case the plain
    handler returns a response.  Nothing the caller sends, no missing token
    and no failure of the fetch makes a handler throw. *)
Theorem throws_only_on_unusable_reply environment fetch request (e : Error) :
  snd (Rich.handler environment fetch request) = Threw e \/
  snd (Plain.handler environment fetch request) = Threw e ->
  exists channelName token text resp,
    valid_request request channelName (str text) /\
    configured environment token /\
    fetch (slack_call token channelName (markdownToSlackMrkdwn text)) = Resolved resp /\
    (slack_body resp = NotJson e \/
     (slack_body resp = NullBody /\ e = null_member "ok") \/
     (exists res j r,
        slack_body resp = Body res /\
        ToBoolean (of_member (ok res)) = false /\
        (slack_status resp < 500)%Z /\
        error res = ErrorOther j (inl e) /\
        snd (Rich.handler environment fetch request) = Threw e /\
        snd (Plain.handler environment fetch request) = Returned r)).
Proof.
  stages environment fetch request.
  1-5: cbn [snd]; intros [H | H]; discriminate.
  destruct (fetch _) as [e'|resp] eqn:Hf; cbn [snd].
  - intros [H | H]; discriminate.
  - intros H. exists ch, token, text, resp.
    split; [exact Hv|]. split; [exact Hc|]. split; [exact Hf|].
    destruct (slack_body resp) as [e'| |res].
    + left. destruct H as [H | H]; inversion H; reflexivity.
    + right. left. split; [reflexivity|].
      destruct (500 <=? slack_status resp)%Z;
        destruct H as [H | H]; inversion H; reflexivity.
    + right. right.
      destruct (500 <=? slack_status resp)%Z eqn:Hs;
        destruct (ToBoolean (of_member (ok res))) eqn:Hok; cbn [negb] in H;
        try (destruct H as [H | H]; discriminate).
      destruct (error res) as [| |code|j [e'|key]] eqn:He; cbv zeta in H;
        try (destruct H as [H | H]; discriminate).
      destruct H as [H | H]; [|discriminate].
      inversion H; subst e'.
      exists res, j. eexists.
      split; [reflexivity|]. split; [exact Hok|].
      split; [now apply Z.leb_gt|]. split; [exact He|].
      split; reflexivity.
Qed.

Lemma throws_only_on_unusable_reply_witness :
  exists channelName token text resp,
    valid_request (Sample.request "general" (Sample.message_body "hi"))
      channelName (str text) /\
    configured Sample.environment token /\
    Sample.reply 200 NullBody (slack_call token channelName (markdownToSlackMrkdwn text))
    = Resolved resp /\
    (slack_body resp = NotJson (null_member "ok") \/
     (slack_body resp = NullBody /\ null_member "ok" = null_member "ok") \/
     (exists res j r,
        slack_body resp = Body res /\
        ToBoolean (of_member (ok res)) = false /\
        (slack_status resp < 500)%Z /\
        error res = ErrorOther j (inl (null_member "ok")) /\
        snd (Rich.handler Sample.environment (Sample.reply 200 NullBody)
               (Sample.request "general" (Sample.message_body "hi")))
        = Threw (null_member "ok") /\
        snd (Plain.handler Sample.environment (Sample.reply 200 NullBody)
               (Sample.request "general" (Sample.message_body "hi")))
        = Returned r)).
Proof.
  exact (throws_only_on_unusable_reply
           Sample.environment (Sample.reply 200 NullBody)
           (Sample.request "general" (Sample.message_body "hi"))
           (null_member "ok") (or_intror eq_refl)).
Defined.

(** X16: a handler calls Slack at most once, and only for a request with a
    channel name and a string message that are not empty, under a token
    that is not empty; the call is then the POST to chat.postMessage with
    [Bearer] and the token, the channel name behind [#], and the
    transformed message.  Both handlers make the same calls. *)
Theorem at_most_one_call environment fetch request :
  fetches (fst (Plain.handler environment fetch request))
  = fetches (fst (Rich.handler environment fetch request)) /\
  (fetches (fst (Rich.handler environment fetch request)) = [] \/
   exists channelName token text,
     valid_request request channelName (str text) /\
     configured environment token /\
     fetches (fst (Rich.handler environment fetch request))
     = [ {| fetch_url := "https://slack.com/api/chat.postMessage";
            fetch_method := "POST";
            fetch_authorization := "Bearer " ++ token;
            fetch_content_type := "application/json; charset=utf-8";
            payload_channel := "#" ++ channelName;
            payload_text := markdownToSlackMrkdwn text |} ]).
Proof.
  stages environment fetch request; try (split; [reflexivity | left; reflexivity]).
  split; [destruct (fetch _); reflexivity|].
  right. exists ch, token, text.
  split; [exact Hv|]. split; [exact Hc|].
  destruct (fetch _); reflexivity.
Qed.

(** X17: on every input the two handlers await the same things in the same
    order: the variants differ in the responses they build, never in what
    they read or send. *)
Theorem variants_await_the_same environment fetch request :
  fst (Rich.handler environment fetch request)
  = fst (Plain.handler environment fetch request).
Proof.
  stages environment fetch request; try reflexivity.
  destruct (fetch _); reflexivity.
Qed.

(** X18: a response with status 200, from either handler, means that the
    message was sent and accepted: the request was valid, the token set,
    the fetch resolved, the body of the reply had a truthy [ok], and the
    response is the envelope with the caller's channel name and the [ts]
    of the reply. *)
Theorem status_200_means_relayed environment fetch request (r : Response) :
  snd (Rich.handler environment fetch request) = Returned r \/
  snd (Plain.handler environment fetch request) = Returned r ->
  status r = 200%Z ->
  exists channelName token text resp res,
    valid_request request channelName (str text) /\
    configured environment token /\
    fetch (slack_call token channelName (markdownToSlackMrkdwn text)) = Resolved resp /\
    slack_body resp = Body res /\
    ToBoolean (of_member (ok res)) = true /\
    r = success_envelope channelName (ts res).
Proof.
  stages environment fetch request.
  1-5: cbn [snd]; intros [H | H]; inversion H; subst r;
       cbn [status Rich.errorResponse Plain.plain_response]; discriminate.
  destruct (fetch _) as [e'|resp] eqn:Hf; cbn [snd].
  - intros [H | H]; inversion H; subst r; cbn; discriminate.
  - destruct (slack_body resp) as [e'| |res] eqn:Hbody.
    + intros [H | H]; discriminate.
    + destruct (500 <=? slack_status resp)%Z;
        intros [H | H]; inversion H; subst r; cbn; discriminate.
    + destruct (ToBoolean (of_member (ok res))) eqn:Hok; cbn [negb]; cbv zeta.
      * intros Hr Hs. exists ch, token, text, resp, res.
        split; [exact Hv|]. split; [exact Hc|]. split; [exact Hf|].
        split; [exact Hbody|]. split; [exact Hok|].
        destruct (500 <=? slack_status resp)%Z;
          destruct Hr as [H | H]; inversion H; subst r; try reflexivity;
          cbn in Hs; discriminate.
      * intros Hr Hs. exfalso.
        destruct (500 <=? slack_status resp)%Z;
          [destruct Hr as [H | H]; inversion H; subst r; cbn in Hs; discriminate|].
        destruct Hr as [H | H];
          [|inversion H; subst r; cbn in Hs; discriminate].
        destruct (error res) as [| |code|j [e'|key]]; cbv zeta in H;
          try discriminate; inversion H; subst r;
          cbn [status Rich.errorResponse] in Hs;
          first [ discriminate Hs
                | now apply mapper_status_not_200 in Hs
                | now apply untyped_status_not_200 in Hs ].
Qed.

Lemma status_200_means_relayed_witness :
  exists channelName token text resp res,
    valid_request (Sample.request "general" (Sample.message_body "hi"))
      channelName (str text) /\
    configured Sample.environment token /\
    Sample.reply 201 (Body Sample.posted)
      (slack_call token channelName (markdownToSlackMrkdwn text)) = Resolved resp /\
    slack_body resp = Body res /\
    ToBoolean (of_member (ok res)) = true /\
    success_envelope "general" (Some (JStr "1234.5678"))
    = success_envelope channelName (ts res).
Proof.
  exact (status_200_means_relayed
           Sample.environment (Sample.reply 201 (Body Sample.posted))
           (Sample.request "general" (Sample.message_body "hi"))
           (success_envelope "general" (Some (JStr "1234.5678")))
           (or_introl eq_refl) eq_refl).
Defined.

(** X19: whenever the richer handler returns a response with status 200,
    the plain handler returns the very same response. *)
Theorem richer_success_is_plain_success environment fetch request (r : Response) :
  snd (Rich.handler environment fetch request) = Returned r ->
  status r = 200%Z ->
  snd (Plain.handler environment fetch request) = Returned r.
Proof.
  stages environment fetch request.
  1-5: cbn [snd]; intros H; inversion H; subst r; cbn; discriminate.
  destruct (fetch _) as [e'|resp]; cbn [snd].
  - intros H; inversion H; subst r; cbn; discriminate.
  - destruct (slack_body resp) as [e'| |res]; try discriminate.
    + destruct (500 <=? slack_status resp)%Z; [|discriminate].
      intros H; inversion H; subst r; cbn; discriminate.
    + destruct (500 <=? slack_status resp)%Z.
      * intros H; inversion H; subst r; cbn; discriminate.
      * destruct (ToBoolean (of_member (ok res))); cbn [negb]; cbv zeta.
        -- auto.
        -- destruct (error res) as [| |code|j [e'|key]]; cbv zeta;
             try discriminate;
             intros H Hs; inversion H; subst r;
             cbn [status Rich.errorResponse] in Hs;
             first [ discriminate Hs
                   | now apply mapper_status_not_200 in Hs
                   | now apply untyped_status_not_200 in Hs ].
Qed.

Lemma richer_success_is_plain_success_witness :
  snd (Plain.handler Sample.environment (Sample.reply 200 (Body Sample.posted))
         (Sample.request "general" (Sample.message_body "hi")))
  = Returned (success_envelope "general" (Some (JStr "1234.5678"))).
Proof.
  exact (richer_success_is_plain_success
           Sample.environment (Sample.reply 200 (Body Sample.posted))
           (Sample.request "general" (Sample.message_body "hi"))
           (success_envelope "general" (Some (JStr "1234.5678")))
           eq_refl eq_refl).
Defined.

(** X20: whenever the plain handler returns a response with status 200, the
    richer handler returns the same response or, when the status of
    Slack's reply is 500 or more, its 503 "Slack API is unavailable";
    it never maps an error code and never throws in that case. *)
Theorem plain_success_is_richer_success_or_503
    environment fetch request (r : Response) :
  snd (Plain.handler environment fetch request) = Returned r ->
  status r = 200%Z ->
  snd (Rich.handler environment fetch request) = Returned r \/
  snd (Rich.handler environment fetch request)
  = Returned {| status := 503;
                headers := [("Content-Type", "application/json")];
                body := [("category", str "service_unavailable");
                         ("code", str "slack_unavailable");
                         ("message", str "Slack API is unavailable")] |}.
Proof.
  stages environment fetch request.
  1-5: cbn [snd]; intros H; inversion H; subst r; cbn; discriminate.
  destruct (fetch _) as [e'|resp]; cbn [snd].
  - intros H; inversion H; subst r; cbn; discriminate.
  - destruct (slack_body resp) as [e'| |res]; try discriminate.
    destruct (ToBoolean (of_member (ok res))); cbn [negb].
    + intros H _. destruct (500 <=? slack_status resp)%Z; [now right | now left].
    + intros H; inversion H; subst r; cbn; discriminate.
Qed.

Lemma plain_success_is_richer_success_or_503_witness :
  snd (Rich.handler Sample.environment (Sample.reply 504 (Body Sample.posted))
         (Sample.request "general" (Sample.message_body "hi")))
  = Returned (success_envelope "general" (Some (JStr "1234.5678"))) \/
  snd (Rich.handler Sample.environment (Sample.reply 504 (Body Sample.posted))
         (Sample.request "general" (Sample.message_body "hi")))
  = Returned {| status := 503;
                headers := [("Content-Type", "application/json")];
                body := [("category", str "service_unavailable");
                         ("code", str "slack_unavailable");
                         ("message", str "Slack API is unavailable")] |}.
Proof.
  exact (plain_success_is_richer_success_or_503
           Sample.environment (Sample.reply 504 (Body Sample.posted))
           (Sample.request "general" (Sample.message_body "hi"))
           (success_envelope "general" (Some (JStr "1234.5678")))
           eq_refl eq_refl).
Defined.
